(** * Volatility stops: ATR, static stop and trailing stop

    A shallow embedding of [src/lib/volatility.ts] and the properties of
    its three exported computations: [calculateATR],
    [calculateVolatilityStop] and [calculateVolatilityStopTrailing].

    ** Numbers

    The functions are written once, over an interface [Arith] of the
    operations the source applies to a JavaScript [number]: [+], [-], [*],
    [/], [Math.abs], [Math.max], [Math.min], the test [<] (and [>], its
    mirror image), integer literals and [Number(x.toFixed(2))].  Two
    instances are given:
    - [binary64]: IEEE 754 doubles ([SpecFloat], 53 bits of precision),
      every operation rounded to nearest even, with NaN, infinities and
      signed zeros, which is the arithmetic of JavaScript;
    - [rational]: exact rationals ([Q]) without rounding error, where
      division by zero is [0] and no value is NaN or infinite.
    A property that does not depend on the laws of arithmetic is proved for
    every instance, hence for doubles.  A property about the order or the
    value of results is proved for [rational], and its examples are
    evaluated on doubles as well.  A period is a natural number; module
    [AnyPeriod] embeds the two functions that take a period, on doubles,
    for a period that is any number.

    ** Exceptions

    A function that can throw returns a [Result]: [Ok v] for a normal
    return, [Throw e] for an exception.  Reading a field of [data[i]] when
    [i] is past the end of the array throws a [TypeError]; reading the
    number [trueRanges[i]] past the end yields [undefined], represented by
    [Throw Undefined].  The theorems show that neither occurs.

    ** Layout

    Part I holds the definitions: the interface and its two instances, the
    embedding of the source, the closed forms of its loops, the reference
    definitions and the sample series.  Part II relates the loops to their
    closed forms.  Part III states the properties of the three
    computations.  Part IV states further properties of these functions
    and of the code around them: [generateSampleData], [formatSymbol] of
    the NSE service, the choice of a service in [stock-api.ts] and the
    handler of GET of the route [/api/stock/volatility], whose services
    and clock are parameters that act on a state of the world. *)

From Stdlib Require Import String Ascii.
From Stdlib Require Import List Arith Lia ZArith Bool.
From Stdlib Require Import QArith Qabs Qminmax Qround Qreduction Lqa.
From Stdlib Require Import DecimalString DecimalNat SpecFloat.
Import ListNotations.

Set Implicit Arguments.

(* ================================================================== *)
(** * Part I: definitions *)

(** ** The operations on numbers *)

Class Arith (number : Type) : Type := {
  int : Z -> number;                       (* an integer literal *)
  plus : number -> number -> number;
  minus : number -> number -> number;
  times : number -> number -> number;
  divide : number -> number -> number;
  Math_abs : number -> number;
  Math_max : number -> number -> number;
  Math_min : number -> number -> number;
  ltb : number -> number -> bool;          (* the test [x < y] *)
  toFixed2 : number -> number              (* [Number(x.toFixed(2))] *)
}.

Declare Scope num_scope.
Delimit Scope num_scope with num.
Notation "x + y" := (plus x y) : num_scope.
Notation "x - y" := (minus x y) : num_scope.
Notation "x * y" := (times x y) : num_scope.
Notation "x / y" := (divide x y) : num_scope.

(** [x > y] is [y < x]. *)
Definition gtb {number : Type} {A : Arith number} (x y : number) : bool :=
  ltb y x.

(** The tests as propositions: [x < y] holds when the test succeeds. *)
Definition less {number : Type} {A : Arith number} (x y : number) : Prop :=
  ltb x y = true.
Definition greater {number : Type} {A : Arith number} (x y : number) : Prop :=
  gtb x y = true.

Notation "x < y" := (less x y) : num_scope.
Notation "x > y" := (greater x y) : num_scope.

(** A natural number (an array length or a period) used in arithmetic. *)
Definition of_nat {number : Type} {A : Arith number} (n : nat) : number :=
  int (Z.of_nat n).

(** [Math.max(a, b, c)]: the arguments are folded from left to right. *)
Definition Math_max3 {number : Type} {A : Arith number} (a b c : number)
  : number :=
  Math_max (Math_max a b) c.

(** The template literal of a non-negative integer [n]. *)
Definition to_string (n : nat) : string :=
  NilEmpty.string_of_uint (Nat.to_uint n).

(** ** Exact rationals *)

Module Exact.

#[local] Open Scope Q_scope.

Definition ltb (x y : Q) : bool := negb (Qle_bool y x).

(** The integer [n] for which [n / 100] is closest to [x >= 0], the larger
    one on a tie: [floor (100 x + 1/2)]. *)
Definition hundredths (x : Q) : Z := Qfloor (x * 100 + (1 # 2)).

(** [Number(x.toFixed(2))].  For [x < 0], [toFixed] formats [-x] and
    prefixes a minus sign; otherwise it prints [hundredths x / 100] with
    two decimals, and [Number] reads that decimal back.  (From [1e21] on
    [toFixed] prints the number itself; a double that large is an integer,
    which rounding to hundredths leaves unchanged.)  The result is in
    lowest terms. *)
Definition toFixed2 (x : Q) : Q :=
  if ltb x 0
  then Qred (- (hundredths (- x) # 100))
  else Qred (hundredths x # 100).

End Exact.

#[export] Instance rational : Arith Q := {|
  int := inject_Z;
  plus := Qplus;
  minus := Qminus;
  times := Qmult;
  divide := Qdiv;
  Math_abs := Qabs;
  Math_max := Qmax;
  Math_min := Qmin;
  ltb := Exact.ltb;
  toFixed2 := Exact.toFixed2
|}.

(** ** IEEE doubles *)

Module Binary64.

#[local] Open Scope Z_scope.

Definition double : Type := spec_float.
Definition prec : Z := 53.
Definition emax : Z := 1024.

(** The double nearest to [m * 2 ^ e]. *)
Definition of_dyadic (m e : Z) : double := binary_normalize prec emax m e false.

(** [Math.max]: NaN if an argument is NaN, [+0] above [-0]. *)
Definition max (x y : double) : double :=
  match SFcompare x y with
  | None => S754_nan
  | Some Lt => y
  | Some Gt => x
  | Some Eq => match x with S754_zero true => y | _ => x end
  end.

(** [Math.min]: NaN if an argument is NaN, [-0] below [+0]. *)
Definition min (x y : double) : double :=
  match SFcompare x y with
  | None => S754_nan
  | Some Lt => x
  | Some Gt => y
  | Some Eq => match x with S754_zero false => y | _ => x end
  end.

(** [floor (100 |x| + 1/2)] for [|x| = m * 2 ^ e]. *)
Definition hundredths (m : positive) (e : Z) : Z :=
  match e with
  | Zneg k => (Zpos m * 200 + 2 ^ Zpos k) / 2 ^ (Zpos k + 1)
  | _ => Zpos m * 2 ^ e * 100
  end.

(** [Number] applied to the decimal [n / 100] with sign [s]: the nearest
    double, a zero of that sign for [n = 0]. *)
Definition of_hundredths (s : bool) (n : Z) : double :=
  match n with
  | Zpos p => SFdiv prec emax (S754_finite s p 0) (S754_finite false 100 0)
  | _ => S754_zero s
  end.

Definition at_least_1e21 (m : positive) (e : Z) : bool :=
  match e with
  | Zneg k => 10 ^ 21 * 2 ^ Zpos k <=? Zpos m
  | _ => 10 ^ 21 <=? Zpos m * 2 ^ e
  end.

(** [Number(x.toFixed(2))]: NaN and the infinities print as themselves,
    both zeros as ["0.00"], a magnitude from [1e21] on as the number
    itself. *)
Definition toFixed2 (x : double) : double :=
  match x with
  | S754_nan | S754_infinity _ => x
  | S754_zero _ => S754_zero false
  | S754_finite s m e =>
      if at_least_1e21 m e then x else of_hundredths s (hundredths m e)
  end.

End Binary64.

#[export] Instance binary64 : Arith Binary64.double := {|
  int := fun z => Binary64.of_dyadic z 0;
  plus := SFadd Binary64.prec Binary64.emax;
  minus := SFsub Binary64.prec Binary64.emax;
  times := SFmul Binary64.prec Binary64.emax;
  divide := SFdiv Binary64.prec Binary64.emax;
  Math_abs := SFabs;
  Math_max := Binary64.max;
  Math_min := Binary64.min;
  ltb := SFltb;
  toFixed2 := Binary64.toFixed2
|}.

(** ** Exceptions and loops *)

Inductive JsError : Type :=
| Error (message : string)     (* [throw new Error(message)] *)
| TypeError                    (* a field read on [undefined] *)
| Undefined.                   (* [undefined] used as a number *)

Inductive Result (A : Type) : Type :=
| Ok (a : A)
| Throw (e : JsError).

Arguments Ok {A} a.
Arguments Throw {A} e.

Definition bind {A B : Type} (r : Result A) (k : A -> Result B) : Result B :=
  match r with
  | Ok a => k a
  | Throw e => Throw e
  end.

Declare Scope js_scope.
Delimit Scope js_scope with js.
Notation "x <- r ;; k" := (bind r (fun x => k))
  (at level 61, r at next level, right associativity) : js_scope.
Open Scope js_scope.

Definition fails {A : Type} (r : Result A) : Prop := exists e, r = Throw e.
Definition returns {A : Type} (r : Result A) : Prop := exists a, r = Ok a.

(** [for (let i = start; i < stop; i++) body]: [n] iterations from index
    [i], the state threaded through the body. *)
Fixpoint for_loop {S : Type} (n i : nat) (body : nat -> S -> Result S) (s : S)
  : Result S :=
  match n with
  | O => Ok s
  | Datatypes.S n' => s' <- body i s ;; for_loop n' (Datatypes.S i) body s'
  end.

Definition for_range {S : Type} (start stop : nat)
  (body : nat -> S -> Result S) (s : S) : Result S :=
  for_loop (stop - start) start body s.

(** [xs.slice(0, n)] and [xs.reduce(f, init)]. *)
Definition slice0 {A : Type} (n : nat) (xs : list A) : list A := firstn n xs.
Definition reduce {A B : Type} (f : B -> A -> B) (init : B) (xs : list A) : B :=
  fold_left f xs init.

(** ** Data model *)

Inductive Recommendation : Type := HOLD | SELL | BUY.
Inductive Trend : Type := UP | DOWN.

Definition trend_eqb (a b : Trend) : bool :=
  match a, b with
  | UP, UP | DOWN, DOWN => true
  | _, _ => false
  end.

Record StockData (number : Type) : Type := mkStockData {
  date : string;
  high : number;
  low : number;
  close : number
}.

Record VolatilityStop (number : Type) : Type := mkVolatilityStop {
  vs_atr : number;
  vs_stopLoss : number;
  vs_stopLossPercentage : number;
  vs_recommendation : Recommendation
}.

Record VolatilityStopResult (number : Type) : Type := mkVolatilityStopResult {
  r_date : string;
  r_close : number;
  r_atr : number;
  r_stopLoss : number;
  r_stopLossPercentage : number;
  r_trend : Trend;
  r_signal : Recommendation
}.

(** The variables the trailing loop updates: [results], [previousStop]
    and [trend]. *)
Record TrailState (number : Type) : Type := mkTrailState {
  results : list (VolatilityStopResult number);
  previousStop : number;
  trend : Trend
}.

(** ** The functions of [volatility.ts] *)

Definition atr_message (period : nat) : string :=
  ("Need at least " ++ to_string (period + 1)
     ++ " data points to calculate ATR")%string.

Definition trailing_message (atrPeriod : nat) : string :=
  ("Need at least " ++ to_string (atrPeriod + 1)
     ++ " data points to calculate Volatility Stop")%string.

Section Source.

Context {number : Type} {A : Arith number}.

#[local] Open Scope num_scope.

(** [data[i]] followed by a field read. *)
Definition item (data : list (StockData number)) (i : nat)
  : Result (StockData number) :=
  match nth_error data i with
  | Some d => Ok d
  | None => Throw TypeError
  end.

(** [xs[i]] used as a number. *)
Definition item_num (xs : list number) (i : nat) : Result number :=
  match nth_error xs i with
  | Some x => Ok x
  | None => Throw Undefined
  end.

Definition calculateTrueRange (high low previousClose : number) : number :=
  let highLow := high - low in
  let highPrevClose := Math_abs (high - previousClose) in
  let lowPrevClose := Math_abs (low - previousClose) in
  Math_max3 highLow highPrevClose lowPrevClose.

(** The body of the first loop: push the true range of point [i]. *)
Definition trueRange_body (data : list (StockData number)) (i : nat)
  (trueRanges : list number) : Result (list number) :=
  cur <- item data i ;;
  prev <- item data (i - 1) ;;
  let tr := calculateTrueRange (high cur) (low cur) (close prev) in
  Ok (trueRanges ++ [tr]).

(** The body of the second loop: smooth with [trueRanges[i]]. *)
Definition smooth_body (period : nat) (trueRanges : list number) (i : nat)
  (atr : number) : Result number :=
  tr <- item_num trueRanges i ;;
  Ok ((atr * (of_nat period - int 1) + tr) / of_nat period).

Definition calculateATR (data : list (StockData number)) (period : nat)
  : Result number :=
  if (length data <? period + 1)%nat then
    Throw (Error (atr_message period))
  else
    trueRanges <- for_range 1 (length data) (trueRange_body data) [] ;;
    let initialATR :=
      reduce (fun sum tr => sum + tr) (int 0) (slice0 period trueRanges)
        / of_nat period in
    for_range period (length trueRanges) (smooth_body period trueRanges)
      initialATR.

Definition calculateVolatilityStop (currentPrice atr multiplier : number)
  : VolatilityStop number :=
  let stopLoss := currentPrice - atr * multiplier in
  let stopLossPercentage :=
    ((currentPrice - stopLoss) / currentPrice) * int 100 in
  let recommendation :=
    if gtb stopLossPercentage (int 10) then SELL
    else if ltb stopLossPercentage (int 3) then BUY
    else HOLD in
  {| vs_atr := toFixed2 atr;
     vs_stopLoss := toFixed2 stopLoss;
     vs_stopLossPercentage := toFixed2 stopLossPercentage;
     vs_recommendation := recommendation |}.

Definition trailing_body (data : list (StockData number)) (atrPeriod : nat)
  (multiplier atr : number) (i : nat) (st : TrailState number)
  : Result (TrailState number) :=
  d <- item data i ;;
  let currentPrice := close d in
  let stopUp := currentPrice - multiplier * atr in
  let stopDown := currentPrice + multiplier * atr in
  let '(stopLoss, trend') :=
    if (i =? atrPeriod)%nat then (stopUp, UP)
    else
      match trend st with
      | UP =>
          let stopLoss := Math_max (previousStop st) stopUp in
          if ltb currentPrice (previousStop st)
          then (stopDown, DOWN) else (stopLoss, UP)
      | DOWN =>
          let stopLoss := Math_min (previousStop st) stopDown in
          if gtb currentPrice (previousStop st)
          then (stopUp, UP) else (stopLoss, DOWN)
      end in
  let stopLossPercentage :=
    Math_abs (((currentPrice - stopLoss) / currentPrice) * int 100) in
  let signal :=
    if trend_eqb trend' UP && gtb currentPrice stopLoss then
      (if ltb stopLossPercentage (int 3) then BUY else HOLD)
    else if trend_eqb trend' DOWN && ltb currentPrice stopLoss then
      (if ltb stopLossPercentage (int 3) then SELL else HOLD)
    else HOLD in
  Ok {| results := results st ++
          [{| r_date := date d;
              r_close := toFixed2 currentPrice;
              r_atr := toFixed2 atr;
              r_stopLoss := toFixed2 stopLoss;
              r_stopLossPercentage := toFixed2 stopLossPercentage;
              r_trend := trend';
              r_signal := signal |}];
        previousStop := stopLoss;
        trend := trend' |}.

Definition calculateVolatilityStopTrailing (data : list (StockData number))
  (atrPeriod : nat) (multiplier : number)
  : Result (list (VolatilityStopResult number)) :=
  if (length data <? atrPeriod + 1)%nat then
    Throw (Error (trailing_message atrPeriod))
  else
    atr <- calculateATR data atrPeriod ;;
    st <- for_range atrPeriod (length data)
            (trailing_body data atrPeriod multiplier atr)
            {| results := []; previousStop := int 0; trend := UP |} ;;
    Ok (results st).

(** ** The loops of [calculateATR] in closed form *)

(** The true range of every adjacent pair, oldest pair first. *)
Fixpoint true_ranges (data : list (StockData number)) : list number :=
  match data with
  | prev :: (cur :: _) as rest =>
      calculateTrueRange (high cur) (low cur) (close prev) :: true_ranges rest
  | _ => []
  end.

(** One step of the smoothing. *)
Definition wilder (period : nat) (atr tr : number) : number :=
  (atr * (of_nat period - int 1) + tr) / of_nat period.

(** What [calculateATR] returns on a series that is long enough. *)
Definition atr_value (data : list (StockData number)) (period : nat) : number :=
  let trs := true_ranges data in
  fold_left (wilder period) (skipn period trs)
    (fold_left plus (firstn period trs) (int 0) / of_nat period).

(** ** The trailing stop as a fold *)

(** The state carried from one evaluated point to the next: the stop
    before rounding, and the trend. *)
Definition Trail : Type := (number * Trend)%type.

Definition trail_init (multiplier atr price : number) : Trail :=
  (price - multiplier * atr, UP).

Definition trail_step (multiplier atr : number) (st : Trail) (price : number)
  : Trail :=
  let (previous, t) := st in
  match t with
  | UP =>
      if ltb price previous
      then (price + multiplier * atr, DOWN)
      else (Math_max previous (price - multiplier * atr), UP)
  | DOWN =>
      if gtb price previous
      then (price - multiplier * atr, UP)
      else (Math_min previous (price + multiplier * atr), DOWN)
  end.

(** Distance between price and stop, in percent of the price. *)
Definition distance_pct (price stop : number) : number :=
  Math_abs (((price - stop) / price) * int 100).

Definition signal_of (t : Trend) (price stop : number) : Recommendation :=
  match t with
  | UP =>
      if gtb price stop
      then (if ltb (distance_pct price stop) (int 3) then BUY else HOLD)
      else HOLD
  | DOWN =>
      if ltb price stop
      then (if ltb (distance_pct price stop) (int 3) then SELL else HOLD)
      else HOLD
  end.

(** The record pushed for input point [d] in state [st]. *)
Definition render (atr : number) (d : StockData number) (st : Trail)
  : VolatilityStopResult number :=
  {| r_date := date d;
     r_close := toFixed2 (close d);
     r_atr := toFixed2 atr;
     r_stopLoss := toFixed2 (fst st);
     r_stopLossPercentage := toFixed2 (distance_pct (close d) (fst st));
     r_trend := snd st;
     r_signal := signal_of (snd st) (close d) (fst st) |}.

(** The recommendation of [calculateVolatilityStop] as a function of the
    percentage before rounding. *)
Definition recommend (pct : number) : Recommendation :=
  if gtb pct (int 10) then SELL
  else if ltb pct (int 3) then BUY
  else HOLD.

End Source.

(** The states after each element of [xs], starting from [st]. *)
Fixpoint scan {S A : Type} (step : S -> A -> S) (st : S) (xs : list A)
  : list S :=
  match xs with
  | [] => []
  | x :: xs' => let st' := step st x in st' :: scan step st' xs'
  end.

(** Neighbours of a list are related by [R]. *)
Inductive Chain {A : Type} (R : A -> A -> Prop) : list A -> Prop :=
| Chain_nil : Chain R []
| Chain_one (a : A) : Chain R [a]
| Chain_cons (a b : A) (l : list A) :
    R a b -> Chain R (b :: l) -> Chain R (a :: b :: l).

Section Fold.

Context {number : Type} {A : Arith number}.

#[local] Open Scope num_scope.

Definition trail_states (multiplier atr : number) (prices : list number)
  : list (@Trail number) :=
  match prices with
  | [] => []
  | p0 :: ps =>
      let st0 := trail_init multiplier atr p0 in
      st0 :: scan (trail_step multiplier atr) st0 ps
  end.

(** The evaluated points paired with their states. *)
Definition trail_points (multiplier atr : number)
  (pts : list (StockData number)) : list (StockData number * Trail) :=
  combine pts (trail_states multiplier atr (map (@close number) pts)).

(** What [calculateVolatilityStopTrailing] returns on a series that is
    long enough. *)
Definition trailing_value (data : list (StockData number)) (atrPeriod : nat)
  (multiplier : number) : list (VolatilityStopResult number) :=
  let atr := atr_value data atrPeriod in
  map (fun p => render atr (fst p) (snd p))
      (trail_points multiplier atr (skipn atrPeriod data)).

(** The state the loop body moves to at index [i]. *)
Definition next_state (atrPeriod : nat) (multiplier atr : number) (i : nat)
  (st : TrailState number) (price : number) : Trail :=
  if (i =? atrPeriod)%nat then trail_init multiplier atr price
  else trail_step multiplier atr (previousStop st, trend st) price.

(** ** The recurrence of the trailing stop, as a relation *)

(** [trail_move m atr st price st']: from state [st], the point with
    closing price [price] leads to state [st'].  The conditions are the
    tests of the source: [price < previous] holds when the test
    succeeds. *)
Inductive trail_move (multiplier atr : number)
  : Trail -> number -> Trail -> Prop :=
| up_ratchets (previous price : number) :
    ~ price < previous ->
    trail_move multiplier atr (previous, UP) price
      (Math_max previous (price - multiplier * atr), UP)
| up_flips (previous price : number) :
    price < previous ->
    trail_move multiplier atr (previous, UP) price
      (price + multiplier * atr, DOWN)
| down_ratchets (previous price : number) :
    ~ price > previous ->
    trail_move multiplier atr (previous, DOWN) price
      (Math_min previous (price + multiplier * atr), DOWN)
| down_flips (previous price : number) :
    price > previous ->
    trail_move multiplier atr (previous, DOWN) price
      (price - multiplier * atr, UP).

(** An evaluated point follows its predecessor by one move. *)
Definition follows (multiplier atr : number)
  (p q : StockData number * Trail) : Prop :=
  trail_move multiplier atr (snd p) (close (fst q)) (snd q).

(** The fields of a returned point, from the input point and the state
    before rounding. *)
Definition rendered (atr : number) (r : VolatilityStopResult number)
  (p : StockData number * Trail) : Prop :=
  let price := close (fst p) in
  let stop := fst (snd p) in
  let pct := Math_abs (((price - stop) / price) * int 100) in
  r_date r = date (fst p) /\
  r_close r = toFixed2 price /\
  r_atr r = toFixed2 atr /\
  r_stopLoss r = toFixed2 stop /\
  r_stopLossPercentage r = toFixed2 pct /\
  r_trend r = snd (snd p) /\
  r_signal r = signal_of (snd (snd p)) price stop.

(** Two numbers differ when one is below the other. *)
Definition differ (x y : number) : Prop := x < y \/ y < x.

(** The values of a list are not all the same. *)
Definition varies (l : list number) : Prop :=
  exists x y, In x l /\ In y l /\ differ x y.

(** ** Sample series *)

(** A point whose high, low and close coincide. *)
Definition flat (day : string) (x : Z) : StockData number :=
  {| date := day; high := int x; low := int x; close := int x |}.

Definition three_days : list (StockData number) :=
  [flat "2024-01-01" 10; flat "2024-01-02" 12; flat "2024-01-03" 11].

Definition four_days : list (StockData number) :=
  [flat "2024-01-01" 10; flat "2024-01-02" 12; flat "2024-01-03" 11;
   flat "2024-01-04" 15].

Definition six_days : list (StockData number) :=
  [flat "2024-01-01" 10; flat "2024-01-02" 12; flat "2024-01-03" 11;
   flat "2024-01-04" 8; flat "2024-01-05" 9; flat "2024-01-06" 14].

Definition seven_days : list (StockData number) :=
  [flat "2024-01-01" 100; flat "2024-01-02" 101; flat "2024-01-03" 102;
   flat "2024-01-04" 103; flat "2024-01-05" 101; flat "2024-01-06" 100;
   flat "2024-01-07" 104].

Definition nine_days : list (StockData number) :=
  [flat "2024-01-01" 100; flat "2024-01-02" 101; flat "2024-01-03" 102;
   flat "2024-01-04" 103; flat "2024-01-05" 104; flat "2024-01-06" 100;
   flat "2024-01-07" 99; flat "2024-01-08" 98; flat "2024-01-09" 103].

Definition ten_days : list (StockData number) :=
  [flat "2024-01-01" 100; flat "2024-01-02" 101; flat "2024-01-03" 102;
   flat "2024-01-04" 103; flat "2024-01-05" 104; flat "2024-01-06" 105;
   flat "2024-01-07" 106; flat "2024-01-08" 107; flat "2024-01-09" 108;
   flat "2024-01-10" 109].

End Fold.

(** What [calculateVolatilityStopTrailing] returns on [nine_days] and on
    [seven_days], with [atrPeriod = 2] and [multiplier = 1], in exact
    arithmetic. *)
Definition nine_days_points : list (VolatilityStopResult Q) :=
  Eval vm_compute in
    match calculateVolatilityStopTrailing nine_days 2 (int 1) with
    | Ok rs => rs
    | Throw _ => []
    end.

Definition seven_days_points : list (VolatilityStopResult Q) :=
  Eval vm_compute in
    match calculateVolatilityStopTrailing seven_days 2 (int 1) with
    | Ok rs => rs
    | Throw _ => []
    end.

(** ** The reference definition of the ATR, on exact rationals *)

Module Reference.

#[local] Open Scope Q_scope.

(** The largest of the three measures of one day's movement. *)
Definition trueRange (high low prevClose : Q) : Q :=
  Qmax (high - low)
       (Qmax (Qabs (high - prevClose)) (Qabs (low - prevClose))).

(** Every point paired with its predecessor: [(previous, current)]. *)
Definition adjacent {A : Type} (l : list A) : list (A * A) :=
  combine l (tl l).

Definition trueRanges (data : list (StockData Q)) : list Q :=
  map (fun p => trueRange (high (snd p)) (low (snd p)) (close (fst p)))
      (adjacent data).




End Reference.

(** ** Order and rounding of returned values, on exact rationals *)


(** A whole number of hundredths. *)
Definition two_decimals (x : Q) : Prop := exists n : Z, (x == n # 100)%Q.

(** ** Reading an error message *)

Definition is_digit (c : ascii) : bool :=
  let n := nat_of_ascii c in ((48 <=? n) && (n <=? 57))%nat.

Fixpoint skip (n : nat) (s : string) : string :=
  match n, s with
  | S n', String _ s' => skip n' s'
  | _, _ => s
  end.

Fixpoint leading_digits (s : string) : string :=
  match s with
  | String c s' => if is_digit c then String c (leading_digits s') else EmptyString
  | EmptyString => EmptyString
  end.

(** The number that follows ["Need at least "] in the message of an
    [Error]. *)
Definition required_length (e : JsError) : option nat :=
  match e with
  | Error message =>
      option_map Nat.of_uint
        (NilEmpty.uint_of_string (leading_digits (skip 14 message)))
  | _ => None
  end.

(** ** Decimal literals and a loop without exceptions *)

(** The decimal literal [n / d] of the source, such as [0.02] for
    [lit 2 100] and [1.02] for [lit 102 100].  On doubles the quotient of
    the two integers is rounded to nearest, which is the double the
    literal denotes; on exact rationals it is the fraction. *)
Definition lit {number : Type} {A : Arith number} (n d : Z) : number :=
  (int n / int d)%num.

(** [for (let i = start; i < start + n; i++) body], for a body that does
    not throw. *)
Fixpoint for_up {S : Type} (n i : nat) (body : nat -> S -> S) (s : S) : S :=
  match n with
  | O => s
  | Datatypes.S n' => for_up n' (Datatypes.S i) body (body i s)
  end.

(** ** [generateSampleData] *)

(** The variables the loop of [generateSampleData] updates: [data] and
    [price], and the number of calls of [Math.random()] made so far. *)
Record SampleState (number : Type) : Type := mkSampleState {
  s_data : list (StockData number);
  s_price : number;
  s_calls : nat
}.

Section Sample.

Context {number : Type} {A : Arith number}.

#[local] Open Scope num_scope.

(** [Math_random k] is the value of the [k]-th call of [Math.random()],
    counted from 0.  [isoDay i n] is [date.toISOString().split("T")[0]]
    for the [new Date()] taken in iteration [i] and set back by [n]
    days. *)
Variable Math_random : nat -> number.
Variable isoDay : nat -> nat -> string.

Definition sample_body (days i : nat) (st : SampleState number)
  : SampleState number :=
  let volatility := s_price st * lit 2 100 in
  let change := (Math_random (s_calls st) - lit 5 10) * volatility in
  let price := s_price st + change in
  let high := price + Math_random (s_calls st + 1) * volatility in
  let low := price - Math_random (s_calls st + 2) * volatility in
  {| s_data := s_data st ++
       [{| date := isoDay i (days - i - 1);
           high := toFixed2 high;
           low := toFixed2 low;
           close := toFixed2 price |}];
     s_price := price;
     s_calls := s_calls st + 3 |}.

Definition generateSampleData (basePrice : number) (days : nat)
  : list (StockData number) :=
  s_data (for_up days 0 (sample_body days)
            {| s_data := []; s_price := basePrice; s_calls := 0 |}).

End Sample.

(** ** [services/nse.service.ts] *)

(** [s.endsWith(suffix)]. *)
Fixpoint endsWith (s suffix : string) : bool :=
  (s =? suffix)%string ||
  match s with
  | String _ s' => endsWith s' suffix
  | EmptyString => false
  end.

(** The last character of a string. *)
Fixpoint last_char (s : string) : option ascii :=
  match s with
  | EmptyString => None
  | String c EmptyString => Some c
  | String _ s' => last_char s'
  end.

(** [x === s] for a value [x] that is a string or [undefined]. *)
Definition option_eqb (x : option string) (s : string) : bool :=
  match x with
  | Some t => (t =? s)%string
  | None => false
  end.

Module NSE.

Definition formatSymbol (symbol : string) : string :=
  if endsWith symbol ".NS" || endsWith symbol ".BO" then symbol
  else (symbol ++ ".NS")%string.

End NSE.

(** ** [stock-api.ts] *)

Module StockApi.

Inductive Service : Type :=
| NSEService
| TwelveDataService
| AlphaVantageService
| FinnhubService.

(** The service chosen for [symbol]; [provider] is
    [process.env.STOCK_API_PROVIDER?.toLowerCase()], [None] when the
    variable is not set. *)
Definition getStockServiceForSymbol (provider : option string)
  (symbol : string) : Service :=
  let isIndianStock :=
    endsWith symbol ".NS" || endsWith symbol ".BO"
    || endsWith symbol ".BSE" in
  if isIndianStock then NSEService
  else if option_eqb provider "twelvedata" then TwelveDataService
  else if option_eqb provider "alphavantage" then AlphaVantageService
  else if option_eqb provider "finnhub" then FinnhubService
  else FinnhubService.

(** The two groups into which [batchFetchPrices] separates the
    symbols. *)
Definition indianStocks (symbols : list string) : list string :=
  filter (fun s => endsWith s ".NS" || endsWith s ".BO" || endsWith s ".BSE")
    symbols.

Definition otherStocks (symbols : list string) : list string :=
  filter (fun s => negb (endsWith s ".NS") && negb (endsWith s ".BO")
                   && negb (endsWith s ".BSE"))
    symbols.

End StockApi.

(** ** The route [/api/stock/volatility] *)

Module Route.

(** The JSON bodies of the responses of GET. *)
Inductive Body (number : Type) : Type :=
| Refused (error : string)                 (* [{ success: false, error }] *)
| Single (symbol : string) (currentPrice atr : number)
    (volatilityStop : VolatilityStop number) (calculatedAt : string).

Arguments Refused {number} error.

Record Response (number : Type) : Type := mkResponse {
  body : Body number;
  status : nat
}.

Declare Scope io_scope.

Section Handlers.

Context {number : Type} {A : Arith number}.

(** The services and the clock act on the world outside the handler:
    [fetchCurrentPrice] and [fetchHistoricalData] are the methods of
    [stockOrchestrator], which resolve to a value or reject;
    [toISOString] is [new Date().toISOString()]; [HISTORICAL_DAYS] is the
    constant of [BATCH_CONFIG]. *)
Variable World : Type.
Variable fetchCurrentPrice : string -> World -> Result number * World.
Variable fetchHistoricalData :
  string -> nat -> World -> Result (list (StockData number)) * World.
Variable toISOString : World -> string.
Variable HISTORICAL_DAYS : nat.

(** The message of an exception the engine raises itself. *)
Variable engine_message : JsError -> string.

(** A computation that acts on the world and returns or throws. *)
Definition IO (T : Type) : Type := World -> Result T * World.

Definition ret {T : Type} (a : T) : IO T := fun w => (Ok a, w).

Definition lift {T : Type} (r : Result T) : IO T := fun w => (r, w).

Definition bindIO {T U : Type} (m : IO T) (k : T -> IO U) : IO U :=
  fun w =>
    match m w with
    | (Ok a, w') => k a w'
    | (Throw e, w') => (Throw e, w')
    end.

Notation "x <- m ;; k" := (bindIO m (fun x => k))
  (at level 61, m at next level, right associativity) : io_scope.

#[local] Open Scope io_scope.

(** [new Date().toISOString()]. *)
Definition now : IO string := fun w => (Ok (toISOString w), w).

(** [try { m } catch (error) { handler }]. *)
Definition try_catch {T : Type} (m : IO T) (handler : JsError -> IO T)
  : IO T :=
  fun w =>
    match m w with
    | (Ok a, w') => (Ok a, w')
    | (Throw e, w') => handler e w'
    end.

(** [error.message], every exception here being an instance of
    [Error]. *)
Definition message_of (error : JsError) : string :=
  match error with
  | Error message => message
  | _ => engine_message error
  end.

(** [NextResponse.json(body)] and [NextResponse.json(body, { status })]. *)
Definition json (b : Body number) : Response number :=
  {| body := b; status := 200 |}.

Definition json_status (b : Body number) (code : nat) : Response number :=
  {| body := b; status := code |}.

(** The handler of GET, from the parsed query on: [symbol] is
    [searchParams.get("symbol")], which is [null] or a string, and
    [atrPeriod] and [atrMultiplier] are the parsed parameters, for a query
    whose [atrPeriod] is absent or a decimal numeral, which [parseInt]
    reads as a natural number. *)
Definition GET (symbol : option string) (atrPeriod : nat)
  (atrMultiplier : number) : IO (Response number) :=
  try_catch
    (match symbol with
     | None | Some EmptyString =>
         ret (json_status (Refused "Symbol is required") 400)
     | Some symbol =>
         currentPrice <- fetchCurrentPrice symbol ;;
         historicalData <- fetchHistoricalData symbol HISTORICAL_DAYS ;;
         atr <- lift (calculateATR historicalData atrPeriod) ;;
         let volatilityStop :=
           calculateVolatilityStop currentPrice atr atrMultiplier in
         calculatedAt <- now ;;
         ret (json (Single symbol currentPrice atr volatilityStop
                      calculatedAt))
     end)
    (fun error => ret (json_status (Refused (message_of error)) 500)).

End Handlers.

End Route.

(** ** The band of the trailing stop, on exact rationals *)

(** The stop of a state lies on the side of the price that its trend
    names, at most [multiplier * atr] away from it. *)
Definition within_band (multiplier atr price : Q) (st : @Trail Q) : Prop :=
  match snd st with
  | UP => (price - multiplier * atr <= fst st /\ fst st <= price)%Q
  | DOWN => (price <= fst st /\ fst st <= price + multiplier * atr)%Q
  end.

(** ** Bars in exact arithmetic *)

(** A bar with [0 <= low <= close <= high]. *)
Definition well_formed (d : StockData Q) : Prop :=
  (0 <= low d /\ low d <= close d /\ close d <= high d)%Q.

(** ** A world for examples *)

(** Services that never fail: every symbol trades at 100 and has the
    history [nine_days]; the clock stands still. *)
Definition steady_price (symbol : string) (w : unit)
  : Result Binary64.double * unit :=
  (Ok (int 100), w).

Definition steady_history (symbol : string) (days : nat) (w : unit)
  : Result (list (StockData Binary64.double)) * unit :=
  (Ok nine_days, w).

Definition steady_clock (w : unit) : string := "2024-01-10T00:00:00.000Z".

Definition no_message (e : JsError) : string := EmptyString.

(** What [calculateVolatilityStopTrailing] returns on [ten_days], with
    [atrPeriod = 2] and [multiplier = 1], in exact arithmetic. *)
Definition ten_days_points : list (VolatilityStopResult Q) :=
  Eval vm_compute in
    match calculateVolatilityStopTrailing ten_days 2 (int 1) with
    | Ok rs => rs
    | Throw _ => []
    end.

(** ** Rounding to two decimals, on doubles *)

(** The magnitude [m * 2 ^ e] of a finite double, as an exact rational. *)
Definition magnitude (m : positive) (e : Z) : Q :=
  match e with
  | Zneg k => Zpos m # 2 ^ k
  | _ => inject_Z (Zpos m * 2 ^ e)
  end.

(** [y] is [x] rounded to two decimals: for a finite [x] of magnitude
    below [1e21], [y] is the double nearest to the decimal with [n]
    hundredths and the sign of [x], which is the quotient of [n] by 100
    in the division of IEEE 754, where [n] is the integer nearest to 100
    times the magnitude of [x], the larger one on a tie, so that the
    decimal is within half a hundredth of the magnitude.  A zero gives
    [+0]; NaN, the infinities and a magnitude from [1e21] on are left as
    they are. *)
Definition rounded_double (x y : Binary64.double) : Prop :=
  match x with
  | S754_nan | S754_infinity _ => y = x
  | S754_zero _ => y = S754_zero false
  | S754_finite s m e =>
      if Qle_bool (inject_Z (10 ^ 21)) (magnitude m e) then y = x
      else
        exists n : Z,
          n = Qfloor (magnitude m e * 100 + (1 # 2)) /\
          (Qabs (inject_Z n * (1 # 100) - magnitude m e) <= 1 # 200)%Q /\
          y = match n with
              | Zpos p =>
                  SFdiv 53 1024 (S754_finite s p 0) (S754_finite false 100 0)
              | _ => S754_zero s
              end
  end.

(** The numeric fields of a returned point are the close, the ATR, the
    stop and the distance of the evaluated point, rounded to two
    decimals. *)
Definition rounded_point (atr : Binary64.double)
  (r : VolatilityStopResult Binary64.double)
  (p : StockData Binary64.double * @Trail Binary64.double) : Prop :=
  let price := close (fst p) in
  let stop := fst (snd p) in
  rounded_double price (r_close r) /\
  rounded_double atr (r_atr r) /\
  rounded_double stop (r_stopLoss r) /\
  rounded_double (distance_pct price stop) (r_stopLossPercentage r).

(** ** A period that is any number *)

(** [calculateATR] and [calculateVolatilityStopTrailing] declare their
    period as a [number] and do not check it.  For a period that is a
    natural number they are the functions embedded above.  This module
    embeds them on doubles for a period that is any double: the counters
    of the loops that start at the period are doubles, an array read at a
    counter that is not an index of the array yields [undefined], and a
    loop may run for ever, so the loops take fuel and a function returns
    [None] when the fuel runs out. *)
Module AnyPeriod.

#[local] Open Scope num_scope.

(** What a function throws: [NeedAtLeast required what] is
    [new Error(`Need at least ${required} data points to calculate
    ${what}`)], the number [required] as the template prints it. *)
Inductive Thrown : Type :=
| NeedAtLeast (required : Binary64.double) (what : string)
| TypeError.

Inductive Outcome (T : Type) : Type :=
| Returned (a : T)
| Threw (e : Thrown).

Arguments Returned {T} a.
Arguments Threw {T} e.

(** [ToIntegerOrInfinity(x)]: NaN and the zeros give 0, a finite number
    is truncated towards zero. *)
Inductive Integer : Type :=
| MinusInfinity
| Finite (z : Z)
| PlusInfinity.

Definition truncate (m : positive) (e : Z) : Z :=
  match e with
  | Zneg k => (Zpos m / 2 ^ Zpos k)%Z
  | _ => (Zpos m * 2 ^ e)%Z
  end.

Definition ToIntegerOrInfinity (x : Binary64.double) : Integer :=
  match x with
  | S754_nan | S754_zero _ => Finite 0
  | S754_infinity true => MinusInfinity
  | S754_infinity false => PlusInfinity
  | S754_finite s m e => Finite (if s then (- truncate m e)%Z else truncate m e)
  end.

(** [xs.slice(0, end)]: a negative [end] counts from the end of the
    array. *)
Definition slice0 {T : Type} (end_ : Binary64.double) (xs : list T) : list T :=
  let len := Z.of_nat (length xs) in
  let final :=
    match ToIntegerOrInfinity end_ with
    | MinusInfinity => 0%Z
    | PlusInfinity => len
    | Finite z => if (z <? 0)%Z then Z.max (len + z) 0 else Z.min z len
    end in
  firstn (Z.to_nat final) xs.

(** The integer that [i] is, when [i] is an integer and not negative:
    the property key of such an [i] is the decimal of that integer. *)
Definition whole (i : Binary64.double) : option Z :=
  match i with
  | S754_zero _ => Some 0%Z
  | S754_finite false m (Zneg k) =>
      if (Zpos m mod 2 ^ Zpos k =? 0)%Z then Some (Zpos m / 2 ^ Zpos k)%Z
      else None
  | S754_finite false m e => Some (Zpos m * 2 ^ e)%Z
  | _ => None
  end.

(** [xs[i]]: the element when [i] is an index of the array, [None] for
    [undefined]. *)
Definition item {T : Type} (xs : list T) (i : Binary64.double) : option T :=
  match whole i with
  | Some z =>
      if (z <? Z.of_nat (length xs))%Z then nth_error xs (Z.to_nat z)
      else None
  | None => None
  end.

(** [for (let i = period; i < trueRanges.length; i++)] of [calculateATR].
    In the sum, [undefined] is NaN. *)
Fixpoint smooth (fuel : nat) (period : Binary64.double)
  (trueRanges : list Binary64.double) (i atr : Binary64.double)
  : option Binary64.double :=
  match fuel with
  | O => None
  | S fuel' =>
      if ltb i (of_nat (length trueRanges)) then
        let tr :=
          match item trueRanges i with
          | Some x => x
          | None => S754_nan
          end in
        smooth fuel' period trueRanges (i + int 1)
          ((atr * (period - int 1) + tr) / period)
      else Some atr
  end.

Definition calculateATR (fuel : nat) (data : list (StockData Binary64.double))
  (period : Binary64.double) : option (Outcome Binary64.double) :=
  if ltb (of_nat (length data)) (period + int 1) then
    Some (Threw (NeedAtLeast (period + int 1) "ATR"))
  else
    match for_range 1 (length data) (trueRange_body data) [] with
    | Throw _ => Some (Threw TypeError)
    | Ok trueRanges =>
        let initialATR :=
          reduce (fun sum tr => sum + tr) (int 0) (slice0 period trueRanges)
            / period in
        match smooth fuel period trueRanges period initialATR with
        | Some atr => Some (Returned atr)
        | None => None
        end
    end.

(** The body of the loop of [calculateVolatilityStopTrailing] from the
    point [d = data[i]] on; [first] is the test [i === atrPeriod]. *)
Definition point (first : bool) (multiplier atr : Binary64.double)
  (d : StockData Binary64.double) (st : TrailState Binary64.double)
  : TrailState Binary64.double :=
  let currentPrice := close d in
  let stopUp := currentPrice - multiplier * atr in
  let stopDown := currentPrice + multiplier * atr in
  let '(stopLoss, trend') :=
    if first then (stopUp, UP)
    else
      match trend st with
      | UP =>
          let stopLoss := Math_max (previousStop st) stopUp in
          if ltb currentPrice (previousStop st)
          then (stopDown, DOWN) else (stopLoss, UP)
      | DOWN =>
          let stopLoss := Math_min (previousStop st) stopDown in
          if gtb currentPrice (previousStop st)
          then (stopUp, UP) else (stopLoss, DOWN)
      end in
  let stopLossPercentage :=
    Math_abs (((currentPrice - stopLoss) / currentPrice) * int 100) in
  let signal :=
    if trend_eqb trend' UP && gtb currentPrice stopLoss then
      (if ltb stopLossPercentage (int 3) then BUY else HOLD)
    else if trend_eqb trend' DOWN && ltb currentPrice stopLoss then
      (if ltb stopLossPercentage (int 3) then SELL else HOLD)
    else HOLD in
  {| results := results st ++
       [{| r_date := date d;
           r_close := toFixed2 currentPrice;
           r_atr := toFixed2 atr;
           r_stopLoss := toFixed2 stopLoss;
           r_stopLossPercentage := toFixed2 stopLossPercentage;
           r_trend := trend';
           r_signal := signal |}];
     previousStop := stopLoss;
     trend := trend' |}.

(** [for (let i = atrPeriod; i < data.length; i++)]: reading [.close] of
    [data[i]] throws a [TypeError] when [data[i]] is [undefined]. *)
Fixpoint trail (fuel : nat) (data : list (StockData Binary64.double))
  (atrPeriod multiplier atr i : Binary64.double)
  (st : TrailState Binary64.double)
  : option (Outcome (TrailState Binary64.double)) :=
  match fuel with
  | O => None
  | S fuel' =>
      if ltb i (of_nat (length data)) then
        match item data i with
        | None => Some (Threw TypeError)
        | Some d =>
            trail fuel' data atrPeriod multiplier atr (i + int 1)
              (point (SFeqb i atrPeriod) multiplier atr d st)
        end
      else Some (Returned st)
  end.

Definition calculateVolatilityStopTrailing (fuel : nat)
  (data : list (StockData Binary64.double))
  (atrPeriod multiplier : Binary64.double)
  : option (Outcome (list (VolatilityStopResult Binary64.double))) :=
  if ltb (of_nat (length data)) (atrPeriod + int 1) then
    Some (Threw (NeedAtLeast (atrPeriod + int 1) "Volatility Stop"))
  else
    match calculateATR fuel data atrPeriod with
    | None => None
    | Some (Threw e) => Some (Threw e)
    | Some (Returned atr) =>
        match trail fuel data atrPeriod multiplier atr atrPeriod
                {| results := []; previousStop := int 0; trend := UP |} with
        | None => None
        | Some (Threw e) => Some (Threw e)
        | Some (Returned st) => Some (Returned (results st))
        end
    end.

(** *** Counting on doubles *)

Definition same (x y : Binary64.double) : bool :=
  match x, y with
  | S754_nan, S754_nan => true
  | S754_zero s, S754_zero t | S754_infinity s, S754_infinity t =>
      Bool.eqb s t
  | S754_finite s m e, S754_finite t n f =>
      Bool.eqb s t && (m =? n)%positive && (e =? f)%Z
  | _, _ => false
  end.

(** The double of the natural number [k] counts as [k] does: adding 1
    gives the double of [k + 1], its index and its integer are [k]. *)
Definition counts (k : nat) : bool :=
  same (of_nat k + int 1) (of_nat (S k))
  && match whole (of_nat k) with
     | Some z => (z =? Z.of_nat k)%Z
     | None => false
     end
  && match ToIntegerOrInfinity (of_nat k) with
     | Finite z => (z =? Z.of_nat k)%Z
     | _ => false
     end.

(** The doubles of [j] and [k] compare as [j] and [k] do. *)
Definition compares (j k : nat) : bool :=
  Bool.eqb (ltb (of_nat j : Binary64.double) (of_nat k)) (j <? k)%nat
  && Bool.eqb (SFeqb (of_nat j) (of_nat k)) (j =? k)%nat.

(** Counting on doubles is exact up to [n]. *)
Definition counts_to (n : nat) : bool :=
  forallb (fun j => counts j && forallb (compares j) (seq 0 (S n)))
    (seq 0 (S n)).

End AnyPeriod.

(* ================================================================== *)
(** * Part II: the loops in closed form *)

(** ** Lists *)

Lemma skipn_nth_error {A : Type} (l : list A) (i : nat) (x : A) :
  nth_error l i = Some x -> skipn i l = x :: skipn (S i) l.
Proof.
  revert i. induction l as [| a l IH]; intros [| i] H; simpl in *;
    try discriminate.
  - now inversion H.
  - now apply IH.
Qed.

Lemma nth_error_in_range {A : Type} (l : list A) (i : nat) :
  (i < length l)%nat -> exists x, nth_error l i = Some x.
Proof.
  intro H. destruct (nth_error l i) eqn:E; [eauto |].
  apply nth_error_None in E. lia.
Qed.

Lemma combine_fst {A B : Type} (l : list A) :
  forall l' : list B, length l = length l' -> map fst (combine l l') = l.
Proof.
  induction l as [| a l IH]; intros [| b l'] H; simpl in *;
    try reflexivity; try discriminate.
  f_equal. apply IH. lia.
Qed.




Lemma scan_length {S A : Type} (step : S -> A -> S) (xs : list A) :
  forall st, length (scan step st xs) = length xs.
Proof. induction xs; intro st; simpl; auto. Qed.




(** ** The loops, for every arithmetic *)

Section Loops.

Context {number : Type} {A : Arith number}.

#[local] Open Scope num_scope.

Lemma true_ranges_short (l : list (StockData number)) :
  (length l <= 1)%nat -> true_ranges l = [].
Proof.
  destruct l as [| a [| b l]]; simpl; intros; try reflexivity; lia.
Qed.

Lemma true_ranges_length (data : list (StockData number)) :
  length (true_ranges data) = (length data - 1)%nat.
Proof.
  induction data as [| a [| b l] IH]; try reflexivity.
  change (true_ranges (a :: b :: l)) with
    (calculateTrueRange (high b) (low b) (close a) :: true_ranges (b :: l)).
  simpl length in *. lia.
Qed.

Lemma trueRange_loop (data : list (StockData number)) :
  forall (n i : nat) (acc : list number),
    (1 <= i)%nat -> (i + n = length data)%nat ->
    for_loop n i (trueRange_body data) acc
    = Ok (acc ++ true_ranges (skipn (i - 1) data)).
Proof.
  induction n as [| n IH]; intros i acc Hi Hlen; simpl.
  - rewrite true_ranges_short, app_nil_r; [reflexivity |].
    rewrite length_skipn. lia.
  - destruct (@nth_error_in_range _ data i) as [cur Hcur]; [lia |].
    destruct (@nth_error_in_range _ data (i - 1)) as [prev Hprev]; [lia |].
    unfold trueRange_body at 1, item. rewrite Hcur, Hprev. simpl.
    rewrite IH by lia.
    rewrite (skipn_nth_error _ _ Hprev).
    replace (S (i - 1)) with i by lia.
    rewrite (skipn_nth_error _ _ Hcur).
    replace (S i - 1)%nat with i by lia.
    rewrite (skipn_nth_error _ _ Hcur).
    simpl. now rewrite <- app_assoc.
Qed.

Lemma trueRange_range (data : list (StockData number)) :
  for_range 1 (length data) (trueRange_body data) [] = Ok (true_ranges data).
Proof.
  unfold for_range. destruct data as [| d data]; [reflexivity |].
  rewrite trueRange_loop; simpl length; try lia.
  reflexivity.
Qed.

Lemma smooth_loop (period : nat) (trs : list number) :
  forall (n i : nat) (atr : number),
    (i + n = length trs)%nat ->
    for_loop n i (smooth_body period trs) atr
    = Ok (fold_left (wilder period) (skipn i trs) atr).
Proof.
  induction n as [| n IH]; intros i atr Hlen; simpl.
  - rewrite skipn_all2 by lia. reflexivity.
  - destruct (@nth_error_in_range _ trs i) as [tr Htr]; [lia |].
    unfold smooth_body at 1, item_num. rewrite Htr. simpl.
    rewrite IH by lia. rewrite (skipn_nth_error _ _ Htr). reflexivity.
Qed.

Lemma calculateATR_short (data : list (StockData number)) (period : nat) :
  (length data < period + 1)%nat ->
  calculateATR data period = Throw (Error (atr_message period)).
Proof.
  intro H. unfold calculateATR. apply Nat.ltb_lt in H. now rewrite H.
Qed.

Lemma calculateATR_long (data : list (StockData number)) (period : nat) :
  (period + 1 <= length data)%nat ->
  calculateATR data period = Ok (atr_value data period).
Proof.
  intro H. unfold calculateATR.
  destruct (Nat.ltb_spec (length data) (period + 1)) as [Hlt | _]; [lia |].
  rewrite trueRange_range. simpl.
  unfold for_range. rewrite smooth_loop.
  - reflexivity.
  - rewrite true_ranges_length. lia.
Qed.

(** ** The recurrence *)

Variables multiplier atr : number.

Create HintDb trail.
#[local] Hint Constructors trail_move Chain : trail.

Lemma trail_step_move (st : Trail) (price : number) :
  trail_move multiplier atr st price (trail_step multiplier atr st price).
Proof.
  destruct st as [previous [|]]; simpl.
  - destruct (ltb price previous) eqn:E; constructor; unfold less; congruence.
  - destruct (gtb price previous) eqn:E; constructor; unfold greater;
      congruence.
Qed.

(** The move is a function of the state and the price. *)
Lemma trail_move_step (st st' : Trail) (price : number) :
  trail_move multiplier atr st price st' ->
  st' = trail_step multiplier atr st price.
Proof.
  intro H. destruct H as [previous p H | previous p H | previous p H | previous p H];
    unfold less, greater in H; simpl.
  - destruct (ltb p previous); [congruence | reflexivity].
  - now rewrite H.
  - destruct (gtb p previous); [congruence | reflexivity].
  - now rewrite H.
Qed.

Lemma trail_states_length (prices : list number) :
  length (trail_states multiplier atr prices) = length prices.
Proof.
  destruct prices; simpl; [reflexivity |]. now rewrite scan_length.
Qed.

Lemma trail_points_fst (pts : list (StockData number)) :
  map fst (trail_points multiplier atr pts) = pts.
Proof.
  unfold trail_points. apply combine_fst.
  now rewrite trail_states_length, length_map.
Qed.

Lemma trail_points_length (pts : list (StockData number)) :
  length (trail_points multiplier atr pts) = length pts.
Proof.
  rewrite <- (trail_points_fst pts) at 2.
  now rewrite length_map.
Qed.

Lemma scan_chain (pts : list (StockData number)) :
  forall (d : StockData number) (st : Trail),
    Chain (follows multiplier atr)
      ((d, st) :: combine pts
                    (scan (trail_step multiplier atr) st
                       (map (@close number) pts))).
Proof.
  induction pts as [| e pts IH]; intros d st; simpl; auto with trail.
  constructor; [| apply IH].
  unfold follows. simpl. apply trail_step_move.
Qed.

Lemma trail_points_chain (pts : list (StockData number)) :
  Chain (follows multiplier atr) (trail_points multiplier atr pts).
Proof.
  destruct pts as [| d pts]; [constructor |]. apply scan_chain.
Qed.

Lemma trail_points_head (d : StockData number)
  (pts : list (StockData number)) :
  exists rest,
    trail_points multiplier atr (d :: pts)
    = (d, (close d - multiplier * atr, UP)) :: rest.
Proof. eexists. reflexivity. Qed.

Lemma Forall2_rendered (pts : list (StockData number * Trail)) :
  Forall2 (rendered atr) (map (fun p => render atr (fst p) (snd p)) pts) pts.
Proof.
  induction pts as [| p pts IH]; simpl; constructor; [| exact IH].
  unfold rendered, render. simpl. repeat split.
Qed.

(** ** The loop of [calculateVolatilityStopTrailing] *)

Lemma trailing_body_eq (data : list (StockData number)) (atrPeriod : nat)
  (i : nat) (st : TrailState number) (d : StockData number) :
  nth_error data i = Some d ->
  trailing_body data atrPeriod multiplier atr i st
  = let st' := next_state atrPeriod multiplier atr i st (close d) in
    Ok {| results := results st ++ [render atr d st'];
          previousStop := fst st';
          trend := snd st' |}.
Proof.
  intro Hd. unfold trailing_body, item, next_state. rewrite Hd. simpl.
  destruct (i =? atrPeriod)%nat; [reflexivity |].
  unfold trail_step. destruct (trend st).
  - destruct (ltb (close d) (previousStop st)); reflexivity.
  - destruct (gtb (close d) (previousStop st)); reflexivity.
Qed.

Lemma trailing_loop (data : list (StockData number)) (atrPeriod : nat) :
  forall (n i : nat) (st : TrailState number),
    (atrPeriod < i)%nat -> (i + n = length data)%nat ->
    exists st',
      for_loop n i (trailing_body data atrPeriod multiplier atr) st = Ok st' /\
      results st' =
        results st ++
        map (fun p => render atr (fst p) (snd p))
          (combine (skipn i data)
             (scan (trail_step multiplier atr) (previousStop st, trend st)
                (map (@close number) (skipn i data)))).
Proof.
  induction n as [| n IH]; intros i st Hi Hlen; simpl.
  - exists st. split; [reflexivity |].
    rewrite skipn_all2 by lia. simpl. now rewrite app_nil_r.
  - destruct (@nth_error_in_range _ data i) as [d Hd]; [lia |].
    erewrite trailing_body_eq by exact Hd. simpl.
    unfold next_state. destruct (Nat.eqb_spec i atrPeriod) as [E | _]; [lia |].
    edestruct IH as [st' [Hrun Hres]]; [| | exists st'; split; [exact Hrun |]].
    + lia.
    + lia.
    + rewrite Hres. simpl. rewrite <- surjective_pairing.
      rewrite (skipn_nth_error _ _ Hd). simpl.
      now rewrite <- app_assoc.
Qed.

Lemma trailing_range (data : list (StockData number)) (atrPeriod : nat) :
  (atrPeriod <= length data)%nat ->
  exists st',
    for_range atrPeriod (length data)
      (trailing_body data atrPeriod multiplier atr)
      {| results := []; previousStop := int 0; trend := UP |} = Ok st' /\
    results st' =
      map (fun p => render atr (fst p) (snd p))
        (trail_points multiplier atr (skipn atrPeriod data)).
Proof.
  intro Hlen. unfold for_range.
  destruct (length data - atrPeriod)%nat as [| n] eqn:En.
  - eexists. split; [reflexivity |].
    rewrite skipn_all2 by lia. reflexivity.
  - destruct (@nth_error_in_range _ data atrPeriod) as [d Hd]; [lia |].
    simpl. erewrite trailing_body_eq by exact Hd. simpl.
    unfold next_state. rewrite Nat.eqb_refl.
    edestruct (@trailing_loop data atrPeriod n (S atrPeriod))
      as [st' [Hrun Hres]]; [| | exists st'; split; [exact Hrun |]].
    + lia.
    + lia.
    + rewrite Hres. simpl. rewrite (skipn_nth_error _ _ Hd).
      reflexivity.
Qed.

End Loops.

Section Trailing.

Context {number : Type} {A : Arith number}.

#[local] Open Scope num_scope.

Lemma trailing_short (data : list (StockData number)) (atrPeriod : nat)
  (multiplier : number) :
  (length data < atrPeriod + 1)%nat ->
  calculateVolatilityStopTrailing data atrPeriod multiplier
  = Throw (Error (trailing_message atrPeriod)).
Proof.
  intro H. unfold calculateVolatilityStopTrailing.
  apply Nat.ltb_lt in H. now rewrite H.
Qed.

Lemma trailing_long (data : list (StockData number)) (atrPeriod : nat)
  (multiplier : number) :
  (atrPeriod + 1 <= length data)%nat ->
  calculateVolatilityStopTrailing data atrPeriod multiplier
  = Ok (trailing_value data atrPeriod multiplier).
Proof.
  intro H. unfold calculateVolatilityStopTrailing.
  destruct (Nat.ltb_spec (length data) (atrPeriod + 1)) as [Hlt | _]; [lia |].
  rewrite calculateATR_long by exact H. simpl.
  destruct (@trailing_range _ _ multiplier (atr_value data atrPeriod)
              data atrPeriod) as [st' [Hrun Hres]]; [lia |].
  rewrite Hrun. simpl. now rewrite Hres.
Qed.

Lemma trailing_ok_inv (data : list (StockData number)) (atrPeriod : nat)
  (multiplier : number) (rs : list (VolatilityStopResult number)) :
  calculateVolatilityStopTrailing data atrPeriod multiplier = Ok rs ->
  (atrPeriod + 1 <= length data)%nat /\
  rs = trailing_value data atrPeriod multiplier.
Proof.
  intro H.
  destruct (Nat.lt_ge_cases (length data) (atrPeriod + 1)) as [Hlt | Hge].
  - rewrite (trailing_short _ _ multiplier Hlt) in H. discriminate.
  - rewrite (trailing_long _ _ multiplier Hge) in H. split; congruence.
Qed.

Lemma trailing_value_length (data : list (StockData number))
  (atrPeriod : nat) (multiplier : number) :
  length (trailing_value data atrPeriod multiplier)
  = (length data - atrPeriod)%nat.
Proof.
  unfold trailing_value.
  now rewrite length_map, trail_points_length, length_skipn.
Qed.

(** The [k]-th returned point renders input point [atrPeriod + k] in the
    [k]-th state. *)
Lemma trailing_value_nth (data : list (StockData number)) (atrPeriod : nat)
  (multiplier : number) (k : nat) (r : VolatilityStopResult number) :
  nth_error (trailing_value data atrPeriod multiplier) k = Some r ->
  exists d st,
    nth_error data (atrPeriod + k) = Some d /\
    nth_error (trail_points multiplier (atr_value data atrPeriod)
                 (skipn atrPeriod data)) k = Some (d, st) /\
    r = render (atr_value data atrPeriod) d st.
Proof.
  unfold trailing_value. cbv zeta. rewrite nth_error_map.
  set (pts := trail_points _ _ _).
  destruct (nth_error pts k) as [[d st] |] eqn:E; simpl; [| discriminate].
  intro H. inversion H; subst r. exists d, st. repeat split.
  rewrite <- nth_error_skipn.
  rewrite <- (trail_points_fst multiplier (atr_value data atrPeriod)
                (skipn atrPeriod data)).
  rewrite nth_error_map. fold pts. now rewrite E.
Qed.

(** ** Signals and recommendations *)

Lemma signal_of_buy (t : Trend) (price stop : number) :
  signal_of t price stop = BUY <->
  t = UP /\ price > stop /\ distance_pct price stop < int 3.
Proof.
  unfold signal_of, less, greater.
  destruct t; destruct (gtb price stop), (ltb price stop);
    destruct (ltb (distance_pct price stop) (int 3));
    split; try discriminate; try tauto;
    intros [H1 [H2 H3]]; discriminate.
Qed.

Lemma signal_of_sell (t : Trend) (price stop : number) :
  signal_of t price stop = SELL <->
  t = DOWN /\ price < stop /\ distance_pct price stop < int 3.
Proof.
  unfold signal_of, less, greater.
  destruct t; destruct (gtb price stop), (ltb price stop);
    destruct (ltb (distance_pct price stop) (int 3));
    split; try discriminate; try tauto;
    intros [H1 [H2 H3]]; discriminate.
Qed.

Lemma signal_of_hold (t : Trend) (price stop : number) :
  signal_of t price stop = HOLD <->
  ~ (t = UP /\ price > stop /\ distance_pct price stop < int 3) /\
  ~ (t = DOWN /\ price < stop /\ distance_pct price stop < int 3).
Proof.
  rewrite <- signal_of_buy, <- signal_of_sell.
  destruct (signal_of t price stop);
    (split;
     [ intro X; try discriminate X; split; discriminate
     | intros [H1 H2]; try reflexivity; exfalso;
       first [ apply H1; reflexivity | apply H2; reflexivity ] ]).
Qed.

Lemma recommend_spec (pct : number) :
  (recommend pct = SELL <-> pct > int 10) /\
  (recommend pct = BUY <-> ~ pct > int 10 /\ pct < int 3) /\
  (recommend pct = HOLD <-> ~ pct > int 10 /\ ~ pct < int 3).
Proof.
  unfold recommend, less, greater.
  destruct (gtb pct (int 10)), (ltb pct (int 3));
    repeat split; try discriminate; try tauto;
    intros [H1 H2]; try discriminate; exfalso; auto.
Qed.

Lemma calculateVolatilityStop_eq (currentPrice atr multiplier : number) :
  calculateVolatilityStop currentPrice atr multiplier
  = let stopLoss := currentPrice - atr * multiplier in
    let pct := ((currentPrice - stopLoss) / currentPrice) * int 100 in
    {| vs_atr := toFixed2 atr;
       vs_stopLoss := toFixed2 stopLoss;
       vs_stopLossPercentage := toFixed2 pct;
       vs_recommendation := recommend pct |}.
Proof. reflexivity. Qed.

End Trailing.

(** ** Error messages *)

Lemma leading_digits_uint (d : Decimal.uint) (rest : string) :
  leading_digits (NilEmpty.string_of_uint d ++ String " " rest)
  = NilEmpty.string_of_uint d.
Proof.
  induction d; simpl; try rewrite IHd; reflexivity.
Qed.

Lemma required_length_atr (period : nat) :
  required_length (Error (atr_message period)) = Some (period + 1)%nat.
Proof.
  unfold required_length, atr_message, to_string. simpl skip.
  rewrite leading_digits_uint, NilEmpty.usu. simpl.
  now rewrite DecimalNat.Unsigned.of_to.
Qed.

(** ** Exact rationals: order and rounding *)

Section Rationals.

#[local] Open Scope Q_scope.

Lemma ltb_lt (x y : Q) : Exact.ltb x y = true <-> x < y.
Proof.
  unfold Exact.ltb. rewrite negb_true_iff, <- not_true_iff_false, Qle_bool_iff.
  split; [apply Qnot_le_lt | apply Qlt_not_le].
Qed.

Lemma ltb_ge (x y : Q) : Exact.ltb x y = false <-> y <= x.
Proof.
  unfold Exact.ltb. rewrite negb_false_iff. apply Qle_bool_iff.
Qed.

(** On exact rationals the tests are the order of [Q]. *)
Lemma less_lt (x y : Q) : less x y <-> x < y.
Proof. apply ltb_lt. Qed.

Lemma greater_gt (x y : Q) : greater x y <-> y < x.
Proof. apply ltb_lt. Qed.

Lemma hundredths_mono (x y : Q) :
  x <= y -> (Exact.hundredths x <= Exact.hundredths y)%Z.
Proof.
  intro H. unfold Exact.hundredths. apply Qfloor_resp_le. lra.
Qed.

Lemma hundredths_nonneg (x : Q) : 0 <= x -> (0 <= Exact.hundredths x)%Z.
Proof.
  intro H. unfold Exact.hundredths.
  change 0%Z with (Qfloor 0). apply Qfloor_resp_le. lra.
Qed.

Lemma Qmake_100 (n : Z) : n # 100 == inject_Z n * (1 # 100).
Proof.
  unfold Qeq, Qmult, inject_Z. simpl. lia.
Qed.

(** [toFixed2 x], through the sign split of [toFixed]. *)
Lemma toFixed2_neg (x : Q) :
  x < 0 ->
  Exact.toFixed2 x == - (inject_Z (Exact.hundredths (- x)) * (1 # 100)).
Proof.
  intro H. unfold Exact.toFixed2. apply ltb_lt in H. rewrite H.
  rewrite Qred_correct. rewrite <- Qmake_100. reflexivity.
Qed.

Lemma toFixed2_nonneg (x : Q) :
  0 <= x -> Exact.toFixed2 x == inject_Z (Exact.hundredths x) * (1 # 100).
Proof.
  intro H. unfold Exact.toFixed2. apply ltb_ge in H. rewrite H.
  rewrite Qred_correct. apply Qmake_100.
Qed.

Lemma inject_Z_le (a b : Z) : (a <= b)%Z -> inject_Z a <= inject_Z b.
Proof. intro H. rewrite <- Zle_Qle. exact H. Qed.

(** Rounding to two decimals is monotone. *)
Lemma toFixed2_mono (x y : Q) :
  x <= y -> Exact.toFixed2 x <= Exact.toFixed2 y.
Proof.
  intro Hxy.
  destruct (Qlt_le_dec x 0) as [Hx | Hx]; destruct (Qlt_le_dec y 0) as [Hy | Hy].
  - rewrite (toFixed2_neg Hx), (toFixed2_neg Hy).
    assert (H : (Exact.hundredths (- y) <= Exact.hundredths (- x))%Z)
      by (apply hundredths_mono; lra).
    apply inject_Z_le in H. lra.
  - rewrite (toFixed2_neg Hx), (toFixed2_nonneg Hy).
    assert (H1 : (0 <= Exact.hundredths (- x))%Z)
      by (apply hundredths_nonneg; lra).
    assert (H2 : (0 <= Exact.hundredths y)%Z)
      by (apply hundredths_nonneg; lra).
    apply inject_Z_le in H1, H2. change (inject_Z 0) with 0 in H1, H2. lra.
  - lra.
  - rewrite (toFixed2_nonneg Hx), (toFixed2_nonneg Hy).
    assert (H : (Exact.hundredths x <= Exact.hundredths y)%Z)
      by (apply hundredths_mono; lra).
    apply inject_Z_le in H. lra.
Qed.

Lemma toFixed2_two_decimals (x : Q) : two_decimals (Exact.toFixed2 x).
Proof.
  unfold two_decimals, Exact.toFixed2. destruct (Exact.ltb x 0).
  - exists (- Exact.hundredths (- x))%Z. rewrite Qred_correct. reflexivity.
  - exists (Exact.hundredths x). apply Qred_correct.
Qed.

Lemma hundredths_near (x : Q) :
  x - (1 # 200) <= inject_Z (Exact.hundredths x) * (1 # 100) /\
  inject_Z (Exact.hundredths x) * (1 # 100) <= x + (1 # 200).
Proof.
  unfold Exact.hundredths.
  pose proof (Qfloor_le (x * 100 + (1 # 2))) as H1.
  pose proof (Qlt_floor (x * 100 + (1 # 2))) as H2.
  rewrite inject_Z_plus in H2. change (inject_Z 1) with 1 in H2.
  set (f := inject_Z (Qfloor (x * 100 + (1 # 2)))) in *.
  split; lra.
Qed.

(** The rounded value is within half a hundredth of the exact one. *)
Lemma toFixed2_near (x : Q) : Qabs (Exact.toFixed2 x - x) <= 1 # 200.
Proof.
  apply Qabs_Qle_condition.
  destruct (Qlt_le_dec x 0) as [Hx | Hx].
  - rewrite (toFixed2_neg Hx). pose proof (hundredths_near (- x)).
    split; lra.
  - rewrite (toFixed2_nonneg Hx). pose proof (hundredths_near x).
    split; lra.
Qed.

(** Numerically equal inputs round to the same representation. *)
Lemma toFixed2_comp (x y : Q) : x == y -> Exact.toFixed2 x = Exact.toFixed2 y.
Proof.
  intro H. unfold Exact.toFixed2, Exact.ltb, Exact.hundredths.
  rewrite H at 1.
  destruct (negb (Qle_bool 0 y)); apply Qred_complete.
  - now rewrite H.
  - now rewrite H.
Qed.

(** ** Exact rationals: the reference definition *)







(** ** Exact rationals: the ratchet *)




End Rationals.

(** ** Exact rationals: bounds *)

Section RationalsMore.

#[local] Open Scope Q_scope.

Lemma true_range_unfold (h l c : Q) :
  calculateTrueRange h l c = Qmax (Qmax (h - l) (Qabs (h - c))) (Qabs (l - c)).
Proof. reflexivity. Qed.

Lemma true_range_lower (h l c : Q) :
  0 <= calculateTrueRange h l c /\
  h - l <= calculateTrueRange h l c /\
  Qabs (h - c) <= calculateTrueRange h l c /\
  Qabs (l - c) <= calculateTrueRange h l c.
Proof.
  rewrite true_range_unfold.
  pose proof (Qabs_nonneg (l - c)) as H0.
  pose proof (Q.le_max_r (Qmax (h - l) (Qabs (h - c))) (Qabs (l - c))) as H1.
  pose proof (Q.le_max_l (Qmax (h - l) (Qabs (h - c))) (Qabs (l - c))) as H2.
  pose proof (Q.le_max_l (h - l) (Qabs (h - c))) as H3.
  pose proof (Q.le_max_r (h - l) (Qabs (h - c))) as H4.
  repeat split; lra.
Qed.

Lemma of_nat_pos (n : nat) : (1 <= n)%nat -> 1 <= inject_Z (Z.of_nat n).
Proof.
  intro H. change 1 with (inject_Z 1). rewrite <- Zle_Qle. lia.
Qed.

Lemma of_nat_succ (n : nat) :
  inject_Z (Z.of_nat (S n)) == inject_Z (Z.of_nat n) + 1.
Proof.
  rewrite Nat2Z.inj_succ. unfold Z.succ. rewrite inject_Z_plus. reflexivity.
Qed.

Lemma sum_between (lo hi : Q) (l : list Q) :
  Forall (fun t => lo <= t <= hi) l ->
  forall a,
    a + inject_Z (Z.of_nat (length l)) * lo <= fold_left Qplus l a /\
    fold_left Qplus l a <= a + inject_Z (Z.of_nat (length l)) * hi.
Proof.
  induction 1 as [| t l Ht _ IH]; intro a.
  - simpl. split; ring_simplify; apply Qle_refl.
  - cbn [fold_left length]. destruct (IH (a + t)) as [IH1 IH2].
    rewrite of_nat_succ. split; lra.
Qed.

Lemma mean_between (lo hi : Q) (l : list Q) :
  Forall (fun t => lo <= t <= hi) l -> (1 <= length l)%nat ->
  lo <= fold_left Qplus l 0 / inject_Z (Z.of_nat (length l)) <= hi.
Proof.
  intros H Hlen. destruct (sum_between H 0) as [H1 H2].
  pose proof (of_nat_pos Hlen) as Hn.
  set (n := inject_Z (Z.of_nat (length l))) in *.
  split.
  - apply Qle_shift_div_l; lra.
  - apply Qle_shift_div_r; lra.
Qed.

Lemma wilder_between (period : nat) (lo hi a t : Q) :
  (1 <= period)%nat -> lo <= a <= hi -> lo <= t <= hi ->
  lo <= wilder period a t <= hi.
Proof.
  intros Hp Ha Ht. pose proof (of_nat_pos Hp) as Hn.
  unfold wilder, of_nat. simpl.
  change (inject_Z 1) with 1.
  set (n := inject_Z (Z.of_nat period)) in *. clearbody n.
  assert (H1 : 0 <= (a - lo) * (n - 1))
    by (apply Qmult_le_0_compat; lra).
  assert (H2 : 0 <= (hi - a) * (n - 1))
    by (apply Qmult_le_0_compat; lra).
  split.
  - apply Qle_shift_div_l; [lra |]. lra.
  - apply Qle_shift_div_r; [lra |]. lra.
Qed.

Lemma fold_wilder_between (period : nat) (lo hi : Q) (l : list Q) :
  (1 <= period)%nat -> Forall (fun t => lo <= t <= hi) l ->
  forall a, lo <= a <= hi -> lo <= fold_left (wilder period) l a <= hi.
Proof.
  intros Hp H. induction H as [| t l Ht _ IH]; intros a Ha.
  - exact Ha.
  - simpl. apply IH. now apply wilder_between.
Qed.

Lemma Forall_firstn {T : Type} (P : T -> Prop) (n : nat) (l : list T) :
  Forall P l -> Forall P (firstn n l).
Proof.
  intro H. revert n. induction H; intros [| n]; simpl; auto.
Qed.

Lemma Forall_skipn {T : Type} (P : T -> Prop) (n : nat) (l : list T) :
  Forall P l -> Forall P (skipn n l).
Proof.
  intro H. revert n. induction H; intros [| n]; simpl; auto.
Qed.

Lemma atr_value_between (data : list (StockData Q)) (period : nat)
  (lo hi : Q) :
  (1 <= period)%nat -> (period + 1 <= length data)%nat ->
  Forall (fun t => lo <= t <= hi) (true_ranges data) ->
  lo <= atr_value data period <= hi.
Proof.
  intros Hp Hlen H. unfold atr_value. cbv zeta.
  apply fold_wilder_between; [exact Hp | now apply Forall_skipn |].
  assert (Hn : length (firstn period (true_ranges data)) = period).
  { rewrite length_firstn, true_ranges_length. lia. }
  pose proof (mean_between (Forall_firstn period H)) as Hm.
  rewrite Hn in Hm. apply Hm. exact Hp.
Qed.

Lemma true_ranges_nonneg (data : list (StockData Q)) :
  Forall (fun t => 0 <= t) (true_ranges data).
Proof.
  induction data as [| prev [| cur rest] IH]; try constructor.
  - apply true_range_lower.
  - exact IH.
Qed.

Lemma Forall_upper (l : list Q) : exists hi, Forall (fun t => t <= hi) l.
Proof.
  induction l as [| t l [hi IH]].
  - exists 0. constructor.
  - exists (Qmax t hi). constructor; [apply Q.le_max_l |].
    eapply Forall_impl; [| exact IH]. simpl. intros a Ha.
    eapply Qle_trans; [exact Ha | apply Q.le_max_r].
Qed.

Lemma Forall_and {T : Type} (P R : T -> Prop) (l : list T) :
  Forall P l -> Forall R l -> Forall (fun t => P t /\ R t) l.
Proof.
  induction 1; intro H'; inversion H'; subst; constructor; auto.
Qed.

Lemma atr_value_nonneg (data : list (StockData Q)) (period : nat) :
  (1 <= period)%nat -> (period + 1 <= length data)%nat ->
  0 <= atr_value data period.
Proof.
  intros Hp Hlen. destruct (Forall_upper (true_ranges data)) as [hi Hhi].
  apply (@atr_value_between data period 0 hi Hp Hlen).
  apply Forall_and; [apply true_ranges_nonneg | exact Hhi].
Qed.

Lemma static_pct (p a m : Q) :
  ~ p == 0 -> ((p - (p - a * m)) / p) * 100 == (a * m) * 100 / p.
Proof. intro Hp. field. exact Hp. Qed.

Lemma static_thresholds (p a m : Q) :
  0 < p ->
  let pct := ((p - (p - a * m)) / p) * 100 in
  (10 < pct <-> (1 # 10) * p < a * m) /\
  (pct < 3 <-> a * m < (3 # 100) * p).
Proof.
  intros Hp pct. subst pct. rewrite static_pct by lra. split; split; intro H.
  - apply Qnot_le_lt. intro Hle. apply (Qlt_not_le _ _ H).
    apply Qle_shift_div_r; lra.
  - apply Qlt_shift_div_l; lra.
  - apply Qnot_le_lt. intro Hle. apply (Qlt_not_le _ _ H).
    apply Qle_shift_div_l; lra.
  - apply Qlt_shift_div_r; lra.
Qed.

Lemma init_band (m atr price : Q) :
  0 <= m * atr -> within_band m atr price (trail_init m atr price).
Proof. intro H. unfold within_band, trail_init. simpl. lra. Qed.

Lemma move_band (m atr price : Q) (st st' : Trail) :
  0 <= m * atr -> trail_move m atr st price st' ->
  within_band m atr price st'.
Proof.
  intros H Hmove. destruct Hmove as [prev p Hn | prev p Hl | prev p Hn | prev p Hg];
    unfold within_band; simpl.
  - rewrite less_lt in Hn. apply Qnot_lt_le in Hn. split.
    + apply Q.le_max_r.
    + apply Q.max_lub; lra.
  - lra.
  - rewrite greater_gt in Hn. apply Qnot_lt_le in Hn. split.
    + apply Q.min_glb; lra.
    + apply Q.le_min_r.
  - lra.
Qed.

Lemma Chain_Forall {T : Type} (R : T -> T -> Prop) (P : T -> Prop) :
  (forall a b, R a b -> P b) ->
  forall a l, P a -> Chain R (a :: l) -> Forall P (a :: l).
Proof.
  intros Hstep a l. revert a. induction l as [| b l IH]; intros a Ha Hc.
  - constructor; [exact Ha | constructor].
  - inversion Hc; subst. constructor; [exact Ha |].
    apply IH; [eapply Hstep; eassumption | assumption].
Qed.

Lemma trail_points_band (m atr : Q) (pts : list (StockData Q)) :
  0 <= m * atr ->
  Forall (fun p => within_band m atr (close (fst p)) (snd p))
    (trail_points m atr pts).
Proof.
  intro H. destruct pts as [| d pts]; [constructor |].
  pose proof (trail_points_chain m atr (d :: pts)) as Hc.
  destruct (trail_points_head m atr d pts) as [rest Hrest].
  rewrite Hrest in *.
  apply Chain_Forall with (R := follows m atr).
  - intros a b Hab. eapply move_band; [exact H | exact Hab].
  - apply init_band, H.
  - exact Hc.
Qed.

Lemma Forall_nth_error {T : Type} (P : T -> Prop) (l : list T) (k : nat)
  (x : T) : Forall P l -> nth_error l k = Some x -> P x.
Proof.
  intros H Hk. rewrite Forall_forall in H. apply H.
  eapply nth_error_In, Hk.
Qed.

End RationalsMore.

(** ** Doubles: NaN *)

Section Doubles.

#[local] Open Scope num_scope.

Lemma nan_plus_l (y : Binary64.double) : S754_nan + y = S754_nan.
Proof. reflexivity. Qed.

Lemma nan_times_l (y : Binary64.double) : S754_nan * y = S754_nan.
Proof. reflexivity. Qed.

Lemma nan_times_r (x : Binary64.double) : x * S754_nan = S754_nan.
Proof. destruct x; reflexivity. Qed.

Lemma nan_minus_l (y : Binary64.double) : S754_nan - y = S754_nan.
Proof. reflexivity. Qed.

Lemma nan_minus_r (x : Binary64.double) : x - S754_nan = S754_nan.
Proof. destruct x; reflexivity. Qed.

Lemma nan_divide_l (y : Binary64.double) : S754_nan / y = S754_nan.
Proof. reflexivity. Qed.

Lemma nan_ltb_r (x : Binary64.double) : ltb x S754_nan = false.
Proof. destruct x; reflexivity. Qed.

Lemma nan_ltb_l (y : Binary64.double) : ltb S754_nan y = false.
Proof. reflexivity. Qed.

Lemma nan_max_l (y : Binary64.double) : Math_max S754_nan y = S754_nan.
Proof. reflexivity. Qed.

Lemma nan_wilder (period : nat) (l : list Binary64.double) :
  fold_left (wilder period) l S754_nan = S754_nan.
Proof.
  induction l as [| t l IH]; [reflexivity |].
  simpl. change (wilder period S754_nan t) with S754_nan. exact IH.
Qed.

Lemma atr_value_zero (data : list (StockData Binary64.double)) :
  atr_value data 0 = S754_nan.
Proof.
  unfold atr_value. cbv zeta. simpl firstn. simpl skipn.
  change (fold_left plus [] (int 0) / of_nat 0) with S754_nan.
  apply nan_wilder.
Qed.

Lemma nan_init (m p : Binary64.double) :
  trail_init m S754_nan p = (S754_nan, UP).
Proof.
  unfold trail_init. now rewrite nan_times_r, nan_minus_r.
Qed.

Lemma nan_step (m p : Binary64.double) :
  trail_step m S754_nan (S754_nan, UP) p = (S754_nan, UP).
Proof.
  unfold trail_step. now rewrite nan_ltb_r, nan_max_l.
Qed.

Lemma nan_scan (m : Binary64.double) (ps : list Binary64.double) :
  scan (trail_step m S754_nan) (S754_nan, UP) ps
  = map (fun _ => (S754_nan, UP)) ps.
Proof.
  induction ps as [| p ps IH]; [reflexivity |].
  cbn [scan map]. rewrite nan_step, IH. reflexivity.
Qed.

Lemma nan_states (m : Binary64.double) (ps : list Binary64.double) :
  trail_states m S754_nan ps = map (fun _ => (S754_nan, UP)) ps.
Proof.
  destruct ps as [| p ps]; [reflexivity |].
  unfold trail_states. cbv zeta. rewrite nan_init, nan_scan. reflexivity.
Qed.

Lemma nan_render (d : StockData Binary64.double) :
  render S754_nan d (S754_nan, UP)
  = {| r_date := date d;
       r_close := toFixed2 (close d);
       r_atr := S754_nan;
       r_stopLoss := S754_nan;
       r_stopLossPercentage := S754_nan;
       r_trend := UP;
       r_signal := HOLD |}.
Proof.
  unfold render, signal_of, distance_pct, gtb. simpl fst. simpl snd.
  rewrite nan_minus_r, nan_ltb_l. reflexivity.
Qed.

Lemma nan_points (m : Binary64.double)
  (pts : list (StockData Binary64.double)) :
  map (fun p => render S754_nan (fst p) (snd p))
    (trail_points m S754_nan pts)
  = map (fun d => render S754_nan d (S754_nan, UP)) pts.
Proof.
  unfold trail_points. rewrite nan_states, map_map.
  induction pts as [| d pts IH]; [reflexivity |].
  simpl. now rewrite IH.
Qed.

End Doubles.

(** ** Multiplication commutes *)

Lemma times_comm_double (x y : Binary64.double) :
  (x * y)%num = (y * x)%num.
Proof.
  destruct x as [sx | sx | | sx mx ex], y as [sy | sy | | sy my ey];
    simpl; try reflexivity; try (now rewrite xorb_comm).
  now rewrite xorb_comm, Pos.mul_comm, Z.add_comm.
Qed.

Lemma times_comm_rational (x y : Q) : (x * y)%num = (y * x)%num.
Proof.
  simpl. unfold Qmult. now rewrite Z.mul_comm, Pos.mul_comm.
Qed.

(** ** The sample series *)

Section SampleLoop.

Context {number : Type} {A : Arith number}.

Variable Math_random : nat -> number.
Variable isoDay : nat -> nat -> string.

Lemma sample_loop_length (days : nat) :
  forall (n i : nat) (st : SampleState number),
    length (s_data (for_up n i (sample_body Math_random isoDay days) st))
    = (length (s_data st) + n)%nat.
Proof.
  induction n as [| n IH]; intros i st; simpl.
  - lia.
  - rewrite IH. simpl. rewrite length_app. simpl. lia.
Qed.

Lemma generateSampleData_length (basePrice : number) (days : nat) :
  length (generateSampleData Math_random isoDay basePrice days) = days.
Proof.
  unfold generateSampleData. rewrite sample_loop_length. reflexivity.
Qed.

End SampleLoop.

Section SampleExact.

#[local] Open Scope Q_scope.

Variable Math_random : nat -> Q.
Variable isoDay : nat -> nat -> string.

Hypothesis random_range : forall k, 0 <= Math_random k /\ Math_random k <= 1.

Lemma toFixed2_zero : Exact.toFixed2 0 == 0.
Proof. reflexivity. Qed.

Lemma sample_step_ok (days i : nat) (st : SampleState Q) :
  0 <= s_price st -> Forall well_formed (s_data st) ->
  let st' := sample_body Math_random isoDay days i st in
  0 <= s_price st' /\ Forall well_formed (s_data st').
Proof.
  intros Hprice Hdata. unfold sample_body. cbv zeta. simpl.
  change (inject_Z 2 / inject_Z 100) with (2 # 100).
  change (inject_Z 5 / inject_Z 10) with (5 # 10).
  destruct (random_range (s_calls st)) as [Ha0 Ha1].
  destruct (random_range (s_calls st + 1)) as [Hb0 Hb1].
  destruct (random_range (s_calls st + 2)) as [Hc0 Hc1].
  set (p := s_price st) in *.
  set (a := Math_random (s_calls st)) in *.
  set (b := Math_random (s_calls st + 1)) in *.
  set (c := Math_random (s_calls st + 2)) in *.
  clearbody p a b c.
  assert (Hv : 0 <= p * (2 # 100)) by lra.
  assert (Hap : 0 <= a * (p * (2 # 100)))
    by (apply Qmult_le_0_compat; assumption).
  assert (Hbp : 0 <= b * (p * (2 # 100)))
    by (apply Qmult_le_0_compat; assumption).
  assert (Hcp : 0 <= (1 - c) * (p * (2 # 100)))
    by (apply Qmult_le_0_compat; [lra | assumption]).
  assert (Hcp' : 0 <= c * (p * (2 # 100)))
    by (apply Qmult_le_0_compat; assumption).
  split; [lra |].
  apply Forall_app. split; [exact Hdata |].
  constructor; [| constructor].
  unfold well_formed. simpl. split; [| split].
  - rewrite <- toFixed2_zero. apply toFixed2_mono. lra.
  - apply toFixed2_mono. lra.
  - apply toFixed2_mono. lra.
Qed.

Lemma sample_loop_ok (days : nat) :
  forall (n i : nat) (st : SampleState Q),
    0 <= s_price st -> Forall well_formed (s_data st) ->
    Forall well_formed
      (s_data (for_up n i (sample_body Math_random isoDay days) st)).
Proof.
  induction n as [| n IH]; intros i st Hprice Hdata; simpl.
  - exact Hdata.
  - destruct (@sample_step_ok days i st Hprice Hdata) as [H1 H2].
    apply IH; assumption.
Qed.

End SampleExact.

Lemma endsWith_app (a b : string) : endsWith (a ++ b) b = true.
Proof.
  induction a as [| c a IH]; simpl.
  - destruct b; simpl; [reflexivity |].
    rewrite Ascii.eqb_refl, String.eqb_refl. reflexivity.
  - rewrite IH. apply orb_true_r.
Qed.

(** ** Suffixes of strings *)

Lemma endsWith_inv (s suffix : string) :
  endsWith s suffix = true -> exists a, s = (a ++ suffix)%string.
Proof.
  induction s as [| c s IH]; cbn [endsWith].
  - destruct suffix; [| discriminate].
    intros _. exists EmptyString. reflexivity.
  - intro H. apply orb_true_iff in H. destruct H as [H | H].
    + apply String.eqb_eq in H. exists EmptyString. exact H.
    + destruct (IH H) as [a ->]. exists (String c a). reflexivity.
Qed.

Lemma last_char_app (a b : string) :
  b <> EmptyString -> last_char (a ++ b) = last_char b.
Proof.
  intro Hb. induction a as [| c a IH]; [reflexivity |].
  simpl. rewrite IH.
  destruct (a ++ b)%string eqn:E; [| reflexivity].
  destruct a; simpl in E; [now elim Hb | discriminate E].
Qed.

Lemma endsWith_last (s suffix : string) (c : ascii) :
  last_char suffix = Some c -> endsWith s suffix = true ->
  last_char s = Some c.
Proof.
  intros Hc H. destruct (endsWith_inv _ _ H) as [a ->].
  rewrite last_char_app; [exact Hc |].
  intros ->. discriminate Hc.
Qed.

(** ** A market that does not fall *)

Section RisingLemmas.

#[local] Open Scope Q_scope.

(** While the closes do not fall, an UP state stays UP and its stop stays
    at or below the close. *)
Lemma rising_scan (m atr : Q) :
  0 <= m * atr ->
  forall (ps : list Q) (last : Q) (st : Trail),
    snd st = UP -> fst st <= last -> Chain Qle (last :: ps) ->
    Forall (fun s => snd s = UP) (scan (trail_step m atr) st ps).
Proof.
  intros Hm. induction ps as [| p ps IH]; intros last [stop t] Ht Hstop Hc;
    simpl in *; [constructor |].
  subst t. inversion Hc as [| | ? ? ? Hle Hrest]; subst.
  assert (Hnot : Exact.ltb p stop = false) by (apply ltb_ge; lra).
  rewrite Hnot. constructor; [reflexivity |].
  apply (IH p); [reflexivity | | exact Hrest].
  simpl. apply Q.max_lub; lra.
Qed.

Lemma rising_states (m atr : Q) (ps : list Q) :
  0 <= m * atr -> Chain Qle ps ->
  Forall (fun s => snd s = UP) (trail_states m atr ps).
Proof.
  intros Hm Hc. destruct ps as [| p ps]; [constructor |].
  unfold trail_states. cbv zeta. constructor; [reflexivity |].
  apply (rising_scan Hm (last := p)); [reflexivity | | exact Hc].
  unfold trail_init. simpl. lra.
Qed.

Lemma Chain_skipn_closes (data : list (StockData Q)) (n : nat) :
  (forall i d d',
      (n <= i)%nat -> nth_error data i = Some d ->
      nth_error data (S i) = Some d' -> close d <= close d') ->
  Chain Qle (map (@close Q) (skipn n data)).
Proof.
  revert n. induction data as [| a data IH]; intros n H.
  - rewrite skipn_nil. constructor.
  - destruct n as [| n].
    + simpl. destruct data as [| b data]; [constructor |].
      simpl. constructor.
      * apply (H 0%nat); [lia | reflexivity | reflexivity].
      * apply (IH 0%nat). intros i d d' _ Hd Hd'.
        apply (H (S i)); [lia | exact Hd | exact Hd'].
    + simpl. apply IH. intros i d d' Hi Hd Hd'.
      apply (H (S i)); [lia | exact Hd | exact Hd'].
Qed.

End RisingLemmas.

(** ** Doubles: rounding to two decimals *)

Section DoubleRounding.

#[local] Open Scope Z_scope.

Lemma pow_pos_Z (k : positive) : Zpos (2 ^ k) = 2 ^ Zpos k.
Proof. apply Pos2Z.inj_pow. Qed.

(** The integer arithmetic of [Binary64.hundredths] computes
    [floor (100 |x| + 1/2)]. *)
Lemma hundredths_magnitude (m : positive) (e : Z) :
  Binary64.hundredths m e = Exact.hundredths (magnitude m e).
Proof.
  unfold Binary64.hundredths, Exact.hundredths, magnitude.
  destruct e as [| p | k].
  - generalize (Zpos m * 2 ^ 0). intro M.
    unfold Qfloor, Qplus, Qmult, inject_Z. cbn [Qnum Qden Pos.mul].
    apply Z.div_unique with 1; lia.
  - generalize (Zpos m * 2 ^ Zpos p). intro M.
    unfold Qfloor, Qplus, Qmult, inject_Z. cbn [Qnum Qden Pos.mul].
    apply Z.div_unique with 1; lia.
  - unfold Qfloor, Qplus, Qmult, inject_Z. cbn [Qnum Qden].
    rewrite !Pos2Z.inj_mul, pow_pos_Z.
    replace (Zpos k + 1) with (Z.succ (Zpos k)) by lia.
    rewrite Z.pow_succ_r by lia.
    f_equal; lia.
Qed.

Lemma at_least_1e21_magnitude (m : positive) (e : Z) :
  Binary64.at_least_1e21 m e = Qle_bool (inject_Z (10 ^ 21)) (magnitude m e).
Proof.
  unfold Binary64.at_least_1e21, magnitude, Qle_bool, inject_Z.
  destruct e as [| p | k]; cbn [Qnum Qden].
  - f_equal; lia.
  - f_equal; lia.
  - rewrite pow_pos_Z. f_equal; lia.
Qed.

End DoubleRounding.

(** [Number(x.toFixed(2))] rounds a double to two decimals. *)
Lemma toFixed2_rounded (x : Binary64.double) :
  rounded_double x (Binary64.toFixed2 x).
Proof.
  destruct x as [s | s | | s m e];
    unfold rounded_double, Binary64.toFixed2; try reflexivity.
  rewrite <- at_least_1e21_magnitude.
  destruct (Binary64.at_least_1e21 m e); [reflexivity |].
  exists (Binary64.hundredths m e).
  split; [apply hundredths_magnitude |]. split; [| reflexivity].
  rewrite hundredths_magnitude.
  destruct (hundredths_near (magnitude m e)) as [H1 H2].
  apply Qabs_Qle_condition. split; lra.
Qed.

Lemma rendered_rounded (atr : Binary64.double)
  (r : VolatilityStopResult Binary64.double)
  (p : StockData Binary64.double * @Trail Binary64.double) :
  rendered atr r p -> rounded_point atr r p.
Proof.
  unfold rendered, rounded_point. cbv zeta.
  intros [_ [Hc [Ha [Hs [Hp _]]]]].
  rewrite Hc, Ha, Hs, Hp. repeat split; apply toFixed2_rounded.
Qed.

(** ** A period that is a natural number, as a double *)

Lemma same_eq (x y : Binary64.double) : AnyPeriod.same x y = true -> x = y.
Proof.
  destruct x as [s | s | | s m e], y as [t | t | | t n f]; simpl;
    try discriminate; try reflexivity.
  - intro H. apply eqb_prop in H. now subst.
  - intro H. apply eqb_prop in H. now subst.
  - intro H. apply andb_prop in H. destruct H as [H He].
    apply andb_prop in H. destruct H as [Hs Hm].
    apply eqb_prop in Hs. apply Pos.eqb_eq in Hm. apply Z.eqb_eq in He.
    now subst.
Qed.

Lemma point_body (data : list (StockData Binary64.double)) (atrPeriod : nat)
  (multiplier atr : Binary64.double) (i : nat)
  (st : TrailState Binary64.double) (d : StockData Binary64.double) :
  nth_error data i = Some d ->
  trailing_body data atrPeriod multiplier atr i st
  = Ok (AnyPeriod.point (i =? atrPeriod)%nat multiplier atr d st).
Proof.
  intro Hd. unfold trailing_body, item, AnyPeriod.point. rewrite Hd.
  cbn [bind].
  destruct (i =? atrPeriod)%nat; [reflexivity |].
  destruct (trend st).
  - destruct (ltb (close d) (previousStop st)); reflexivity.
  - destruct (gtb (close d) (previousStop st)); reflexivity.
Qed.

Section NaturalPeriod.

#[local] Open Scope num_scope.

(** Counting on doubles is exact up to [bound]. *)
Variable bound : nat.
Hypothesis counting : AnyPeriod.counts_to bound = true.

Lemma counts_at (j : nat) :
  (j <= bound)%nat ->
  AnyPeriod.counts j = true /\
  forall k, (k <= bound)%nat -> AnyPeriod.compares j k = true.
Proof.
  intro Hj. unfold AnyPeriod.counts_to in counting.
  rewrite forallb_forall in counting.
  assert (Hin : In j (seq 0 (S bound))) by (apply in_seq; lia).
  apply counting in Hin. apply andb_prop in Hin. destruct Hin as [H1 H2].
  split; [exact H1 |]. intros k Hk. rewrite forallb_forall in H2.
  apply H2. apply in_seq. lia.
Qed.

Lemma counts_succ (k : nat) :
  (k <= bound)%nat -> (of_nat k + int 1 : Binary64.double) = of_nat (S k).
Proof.
  intro Hk. destruct (counts_at Hk) as [H _]. unfold AnyPeriod.counts in H.
  apply andb_prop in H. destruct H as [H _].
  apply andb_prop in H. destruct H as [H _].
  now apply same_eq.
Qed.

Lemma counts_whole (k : nat) :
  (k <= bound)%nat -> AnyPeriod.whole (of_nat k) = Some (Z.of_nat k).
Proof.
  intro Hk. destruct (counts_at Hk) as [H _]. unfold AnyPeriod.counts in H.
  apply andb_prop in H. destruct H as [H _].
  apply andb_prop in H. destruct H as [_ H].
  destruct (AnyPeriod.whole (of_nat k)) as [z |]; [| discriminate].
  apply Z.eqb_eq in H. now subst.
Qed.

Lemma counts_integer (k : nat) :
  (k <= bound)%nat ->
  AnyPeriod.ToIntegerOrInfinity (of_nat k) = AnyPeriod.Finite (Z.of_nat k).
Proof.
  intro Hk. destruct (counts_at Hk) as [H _]. unfold AnyPeriod.counts in H.
  apply andb_prop in H. destruct H as [_ H].
  destruct (AnyPeriod.ToIntegerOrInfinity (of_nat k)) as [| z |];
    try discriminate.
  apply Z.eqb_eq in H. now subst.
Qed.

Lemma counts_ltb (j k : nat) :
  (j <= bound)%nat -> (k <= bound)%nat ->
  ltb (of_nat j : Binary64.double) (of_nat k) = (j <? k)%nat.
Proof.
  intros Hj Hk. destruct (counts_at Hj) as [_ H]. specialize (H k Hk).
  unfold AnyPeriod.compares in H. apply andb_prop in H. destruct H as [H _].
  now apply eqb_prop.
Qed.

Lemma counts_eqb (j k : nat) :
  (j <= bound)%nat -> (k <= bound)%nat ->
  SFeqb (of_nat j) (of_nat k) = (j =? k)%nat.
Proof.
  intros Hj Hk. destruct (counts_at Hj) as [_ H]. specialize (H k Hk).
  unfold AnyPeriod.compares in H. apply andb_prop in H. destruct H as [_ H].
  now apply eqb_prop.
Qed.

Lemma item_nat {T : Type} (xs : list T) (k : nat) :
  (k <= bound)%nat -> AnyPeriod.item xs (of_nat k) = nth_error xs k.
Proof.
  intro Hk. unfold AnyPeriod.item. rewrite counts_whole by exact Hk.
  rewrite Nat2Z.id.
  destruct (Z.ltb_spec (Z.of_nat k) (Z.of_nat (length xs))) as [_ | H];
    [reflexivity |].
  symmetry. apply nth_error_None. lia.
Qed.

Lemma slice0_nat {T : Type} (xs : list T) (k : nat) :
  (k <= bound)%nat -> (k <= length xs)%nat ->
  AnyPeriod.slice0 (of_nat k) xs = firstn k xs.
Proof.
  intros Hk Hlen. unfold AnyPeriod.slice0.
  rewrite counts_integer by exact Hk.
  destruct (Z.ltb_spec (Z.of_nat k) 0) as [H | _]; [lia |].
  rewrite Z.min_l by lia. now rewrite Nat2Z.id.
Qed.

Lemma smooth_nat (period : nat) (trs : list Binary64.double) :
  (length trs <= bound)%nat ->
  forall (n k fuel : nat) (atr : Binary64.double),
    (k + n = length trs)%nat -> (n < fuel)%nat ->
    AnyPeriod.smooth fuel (of_nat period) trs (of_nat k) atr
    = Some (fold_left (wilder period) (skipn k trs) atr).
Proof.
  intro Hb. induction n as [| n IH]; intros k fuel atr Hlen Hfuel;
    (destruct fuel as [| fuel]; [lia |]); cbn [AnyPeriod.smooth].
  - rewrite counts_ltb by lia.
    destruct (Nat.ltb_spec k (length trs)) as [H | _]; [lia |].
    rewrite skipn_all2 by lia. reflexivity.
  - rewrite counts_ltb by lia.
    destruct (Nat.ltb_spec k (length trs)) as [_ | H]; [| lia].
    rewrite item_nat by lia.
    destruct (@nth_error_in_range _ trs k) as [tr Htr]; [lia |].
    rewrite Htr. rewrite counts_succ by lia. rewrite IH by lia.
    rewrite (skipn_nth_error _ _ Htr). reflexivity.
Qed.

Lemma calculateATR_nat (data : list (StockData Binary64.double))
  (period fuel : nat) :
  (length data <= bound)%nat -> (period < bound)%nat ->
  (length data < fuel)%nat ->
  AnyPeriod.calculateATR fuel data (of_nat period)
  = Some (if (length data <? period + 1)%nat
          then AnyPeriod.Threw
                 (AnyPeriod.NeedAtLeast (of_nat (period + 1)) "ATR")
          else AnyPeriod.Returned (atr_value data period)).
Proof.
  intros Hb Hp Hfuel. unfold AnyPeriod.calculateATR.
  rewrite counts_succ by lia. rewrite counts_ltb by lia.
  replace (period + 1)%nat with (S period) by lia.
  destruct (Nat.ltb_spec (length data) (S period)) as [_ | Hlen];
    [reflexivity |].
  rewrite trueRange_range.
  assert (Hl := true_ranges_length data).
  rewrite slice0_nat by lia.
  rewrite (@smooth_nat period (true_ranges data))
    with (n := (length (true_ranges data) - period)%nat) by lia.
  reflexivity.
Qed.

Lemma trail_nat (data : list (StockData Binary64.double)) (atrPeriod : nat)
  (multiplier atr : Binary64.double) :
  (length data <= bound)%nat -> (atrPeriod <= bound)%nat ->
  forall (n i fuel : nat) (st : TrailState Binary64.double),
    (i + n = length data)%nat -> (n < fuel)%nat ->
    AnyPeriod.trail fuel data (of_nat atrPeriod) multiplier atr (of_nat i) st
    = Some match for_loop n i (trailing_body data atrPeriod multiplier atr) st
           with
           | Ok st' => AnyPeriod.Returned st'
           | Throw _ => AnyPeriod.Threw AnyPeriod.TypeError
           end.
Proof.
  intros Hb Hp. induction n as [| n IH]; intros i fuel st Hlen Hfuel;
    (destruct fuel as [| fuel]; [lia |]);
    cbn [AnyPeriod.trail for_loop].
  - rewrite counts_ltb by lia.
    destruct (Nat.ltb_spec i (length data)) as [H | _]; [lia |].
    reflexivity.
  - rewrite counts_ltb by lia.
    destruct (Nat.ltb_spec i (length data)) as [_ | H]; [| lia].
    rewrite item_nat by lia.
    destruct (@nth_error_in_range _ data i) as [d Hd]; [lia |].
    rewrite Hd. rewrite counts_succ by lia. rewrite counts_eqb by lia.
    rewrite IH by lia.
    rewrite (@point_body data atrPeriod multiplier atr i st d Hd).
    reflexivity.
Qed.

Lemma trailing_nat (data : list (StockData Binary64.double))
  (atrPeriod fuel : nat) (multiplier : Binary64.double) :
  (length data <= bound)%nat -> (atrPeriod < bound)%nat ->
  (length data < fuel)%nat ->
  AnyPeriod.calculateVolatilityStopTrailing fuel data (of_nat atrPeriod)
    multiplier
  = Some (if (length data <? atrPeriod + 1)%nat
          then AnyPeriod.Threw
                 (AnyPeriod.NeedAtLeast (of_nat (atrPeriod + 1))
                    "Volatility Stop")
          else AnyPeriod.Returned (trailing_value data atrPeriod multiplier)).
Proof.
  intros Hb Hp Hfuel. unfold AnyPeriod.calculateVolatilityStopTrailing.
  rewrite calculateATR_nat by lia.
  rewrite counts_succ by lia. rewrite counts_ltb by lia.
  replace (atrPeriod + 1)%nat with (S atrPeriod) by lia.
  destruct (Nat.ltb_spec (length data) (S atrPeriod)) as [_ | Hlen];
    [reflexivity |].
  rewrite (@trail_nat data atrPeriod multiplier (atr_value data atrPeriod))
    with (n := (length data - atrPeriod)%nat) by lia.
  assert (Hlong : calculateVolatilityStopTrailing data atrPeriod multiplier
                  = Ok (trailing_value data atrPeriod multiplier))
    by (apply trailing_long; lia).
  unfold calculateVolatilityStopTrailing in Hlong.
  destruct (Nat.ltb_spec (length data) (atrPeriod + 1)) as [Hlt | _];
    [lia |].
  rewrite calculateATR_long in Hlong by lia. cbn [bind] in Hlong.
  unfold for_range in Hlong.
  destruct (for_loop (length data - atrPeriod) atrPeriod
              (trailing_body data atrPeriod multiplier
                 (atr_value data atrPeriod))
              {| results := []; previousStop := int 0; trend := UP |})
    as [st' | e]; cbn [bind] in Hlong.
  - injection Hlong as Hres. now rewrite Hres.
  - discriminate.
Qed.

End NaturalPeriod.

(** Counting on doubles is exact up to 256. *)
Lemma counts_to_256 : AnyPeriod.counts_to 256 = true.
Proof. vm_compute. reflexivity. Qed.

(** ** Any period: the guard, fuel and a loop that does not end *)

Section AnyPeriodGuard.

#[local] Open Scope num_scope.

Variable data : list (StockData Binary64.double).
Variable period : Binary64.double.

(** [calculateATR] throws nothing but the error of its guard. *)
Lemma calculateATR_guard (fuel : nat) :
  (of_nat (length data) < period + int 1 ->
   AnyPeriod.calculateATR fuel data period
   = Some (AnyPeriod.Threw (AnyPeriod.NeedAtLeast (period + int 1) "ATR"))) /\
  (ltb (of_nat (length data)) (period + int 1) = false ->
   forall e, AnyPeriod.calculateATR fuel data period
             <> Some (AnyPeriod.Threw e)).
Proof.
  unfold less, AnyPeriod.calculateATR. split; intro H; rewrite H.
  - reflexivity.
  - intro e. rewrite trueRange_range.
    destruct (AnyPeriod.smooth _ _ _ _ _); discriminate.
Qed.

(** The only [Error] that [calculateVolatilityStopTrailing] throws is the
    one of its guard. *)
Lemma trailing_guard (fuel : nat) (multiplier : Binary64.double) :
  (of_nat (length data) < period + int 1 ->
   AnyPeriod.calculateVolatilityStopTrailing fuel data period multiplier
   = Some (AnyPeriod.Threw
             (AnyPeriod.NeedAtLeast (period + int 1) "Volatility Stop"))) /\
  (ltb (of_nat (length data)) (period + int 1) = false ->
   forall required what,
     AnyPeriod.calculateVolatilityStopTrailing fuel data period multiplier
     <> Some (AnyPeriod.Threw (AnyPeriod.NeedAtLeast required what))).
Proof.
  unfold less, AnyPeriod.calculateVolatilityStopTrailing.
  split; intro H; rewrite H.
  - reflexivity.
  - intros required what.
    destruct (AnyPeriod.calculateATR fuel data period) as [[atr | e] |] eqn:E.
    + clear E. generalize period at 2.
      generalize {| results := []; previousStop := int 0; trend := UP |}.
      induction fuel as [| n IH]; intros st i; simpl; [discriminate |].
      destruct (SFltb i _); [| discriminate].
      destruct (AnyPeriod.item data i); [| discriminate].
      apply IH.
    + exfalso. exact (proj2 (calculateATR_guard fuel) H e E).
    + discriminate.
Qed.

End AnyPeriodGuard.

(** More fuel does not change a result. *)
Lemma smooth_more (period : Binary64.double) (trs : list Binary64.double)
  (fuel : nat) :
  forall (more : nat) (i atr r : Binary64.double),
    AnyPeriod.smooth fuel period trs i atr = Some r ->
    AnyPeriod.smooth (fuel + more) period trs i atr = Some r.
Proof.
  induction fuel as [| n IH]; intros more i atr r; simpl; [discriminate |].
  destruct (SFltb i _); [apply IH | trivial].
Qed.

Lemma trail_more (data : list (StockData Binary64.double))
  (atrPeriod multiplier atr : Binary64.double) (fuel : nat) :
  forall (more : nat) (i : Binary64.double) (st : TrailState Binary64.double)
         (r : AnyPeriod.Outcome (TrailState Binary64.double)),
    AnyPeriod.trail fuel data atrPeriod multiplier atr i st = Some r ->
    AnyPeriod.trail (fuel + more) data atrPeriod multiplier atr i st = Some r.
Proof.
  induction fuel as [| n IH]; intros more i st r; simpl; [discriminate |].
  destruct (SFltb i _); [| trivial].
  destruct (AnyPeriod.item data i); [apply IH | trivial].
Qed.

Lemma calculateATR_more (data : list (StockData Binary64.double))
  (period : Binary64.double) (fuel more : nat)
  (r : AnyPeriod.Outcome Binary64.double) :
  AnyPeriod.calculateATR fuel data period = Some r ->
  AnyPeriod.calculateATR (fuel + more) data period = Some r.
Proof.
  unfold AnyPeriod.calculateATR.
  destruct (ltb _ _); [trivial |].
  destruct (for_range _ _ _ _) as [trs | e]; [| trivial].
  destruct (AnyPeriod.smooth fuel _ _ _ _) as [atr |] eqn:E; [| discriminate].
  now rewrite (smooth_more _ _ _ more _ _ E).
Qed.

Lemma trailing_more (data : list (StockData Binary64.double))
  (atrPeriod multiplier : Binary64.double) (fuel more : nat)
  (r : AnyPeriod.Outcome (list (VolatilityStopResult Binary64.double))) :
  AnyPeriod.calculateVolatilityStopTrailing fuel data atrPeriod multiplier
  = Some r ->
  AnyPeriod.calculateVolatilityStopTrailing (fuel + more) data atrPeriod
    multiplier = Some r.
Proof.
  unfold AnyPeriod.calculateVolatilityStopTrailing.
  destruct (ltb _ _); [trivial |].
  destruct (AnyPeriod.calculateATR fuel _ _) as [o |] eqn:E; [| discriminate].
  rewrite (calculateATR_more _ _ _ more E).
  destruct o as [atr | e]; [| trivial].
  destruct (AnyPeriod.trail fuel _ _ _ _ _ _) as [o |] eqn:E';
    [| discriminate].
  now rewrite (trail_more _ _ _ _ _ more _ _ E').
Qed.

(** A counter that adding 1 leaves unchanged never reaches the length. *)
Lemma smooth_stuck (period i : Binary64.double) (trs : list Binary64.double) :
  ltb i (of_nat (length trs)) = true -> (i + int 1)%num = i ->
  forall (fuel : nat) (atr : Binary64.double),
    AnyPeriod.smooth fuel period trs i atr = None.
Proof.
  intros Hlt Hstep. induction fuel as [| n IH]; intro atr; simpl;
    [reflexivity |].
  simpl in Hlt, Hstep. rewrite Hlt, Hstep. apply IH.
Qed.

(** With the period [-1e20], [calculateATR] on three days does not return:
    the counter of the smoothing loop starts at [-1e20] and [i++] leaves
    it there. *)
Lemma calculateATR_runs_for_ever (fuel : nat) :
  AnyPeriod.calculateATR fuel three_days (int (- 10 ^ 20)) = None.
Proof.
  unfold AnyPeriod.calculateATR.
  replace (ltb (of_nat (length (@three_days Binary64.double binary64)))
             (int (- 10 ^ 20) + int 1)%num) with false
    by (vm_compute; reflexivity).
  rewrite trueRange_range. rewrite smooth_stuck; [reflexivity | |];
    vm_compute; reflexivity.
Qed.

(** Within 256 points and periods, the functions for a period that is any
    number do on the double of a natural period what the functions above
    do on that period. *)
Lemma natural_period (data : list (StockData Binary64.double))
  (period fuel : nat) (multiplier : Binary64.double) :
  (length data <= 256)%nat -> (period < 256)%nat ->
  (length data < fuel)%nat ->
  AnyPeriod.calculateATR fuel data (of_nat period)
  = Some match calculateATR data period with
         | Ok atr => AnyPeriod.Returned atr
         | Throw _ =>
             AnyPeriod.Threw
               (AnyPeriod.NeedAtLeast (of_nat (period + 1)) "ATR")
         end /\
  AnyPeriod.calculateVolatilityStopTrailing fuel data (of_nat period)
    multiplier
  = Some match calculateVolatilityStopTrailing data period multiplier with
         | Ok rs => AnyPeriod.Returned rs
         | Throw _ =>
             AnyPeriod.Threw
               (AnyPeriod.NeedAtLeast (of_nat (period + 1)) "Volatility Stop")
         end.
Proof.
  intros Hb Hp Hfuel.
  rewrite (calculateATR_nat counts_to_256) by lia.
  rewrite (trailing_nat counts_to_256) by lia.
  destruct (Nat.ltb_spec (length data) (period + 1)) as [H | H].
  - rewrite (calculateATR_short _ _ H), (trailing_short _ _ multiplier H).
    split; reflexivity.
  - rewrite (calculateATR_long _ _ H), (trailing_long _ _ multiplier H).
    split; reflexivity.
Qed.

(* ================================================================== *)
(** * Part III: properties *)

(** What [calculateVolatilityStopTrailing seven_days 2 1] returns on
    doubles. *)
Lemma seven_days_binary64 :
  exists rs : list (VolatilityStopResult Binary64.double),
    calculateVolatilityStopTrailing seven_days 2 (int 1) = Ok rs /\
    map (fun r => (r_trend r, r_signal r)) rs
    = [(UP, BUY); (UP, BUY); (UP, BUY); (DOWN, SELL); (UP, BUY)] /\
    map (@r_stopLoss _) rs
    = [divide (int 9938) (int 100); divide (int 10038) (int 100);
       divide (int 10038) (int 100); divide (int 10263) (int 100);
       divide (int 10138) (int 100)].
Proof.
  eexists. split; [vm_compute; reflexivity |].
  split; vm_compute; reflexivity.
Qed.


Lemma seven_days_run :
  calculateVolatilityStopTrailing seven_days 2 (int 1) = Ok seven_days_points.
Proof. vm_compute. reflexivity. Qed.

(** C1: for a period that is a natural number, [calculateATR] throws
    exactly when the series has fewer than [period + 1] points, the error
    being the one with the message
    "Need at least ... data points to calculate ATR", and returns a number
    otherwise; [calculateVolatilityStopTrailing] throws exactly when the
    series has fewer than [atrPeriod + 1] points, with its own message, and
    returns its points otherwise.  This holds in every arithmetic.

    For a period that is any number, on doubles and with whatever fuel:
    [calculateATR] throws exactly when the test
    [data.length < period + 1] succeeds, and what it throws is the error
    of that test; [calculateVolatilityStopTrailing] throws the error of
    its test exactly when the test succeeds, and no other [Error] of this
    kind.  On the double of a natural period, for up to 256 points and
    periods below 256, both functions do what the functions for a natural
    period do. *)
Theorem C1_insufficient_data_iff {number : Type} {A : Arith number}
  (data : list (StockData number)) (period : nat) (multiplier : number) :
  (fails (calculateATR data period) <-> (length data < period + 1)%nat) /\
  (calculateATR data period = Throw (Error (atr_message period))
   <-> (length data < period + 1)%nat) /\
  (returns (calculateATR data period) <-> (period + 1 <= length data)%nat) /\
  (fails (calculateVolatilityStopTrailing data period multiplier)
   <-> (length data < period + 1)%nat) /\
  (calculateVolatilityStopTrailing data period multiplier
   = Throw (Error (trailing_message period))
   <-> (length data < period + 1)%nat) /\
  (returns (calculateVolatilityStopTrailing data period multiplier)
   <-> (period + 1 <= length data)%nat) /\
  (forall (fuel : nat) (series : list (StockData Binary64.double))
          (p m : Binary64.double),
      ((exists e, AnyPeriod.calculateATR fuel series p
                  = Some (AnyPeriod.Threw e))
       <-> (of_nat (length series) < p + int 1)%num) /\
      (AnyPeriod.calculateATR fuel series p
       = Some (AnyPeriod.Threw (AnyPeriod.NeedAtLeast (p + int 1)%num "ATR"))
       <-> (of_nat (length series) < p + int 1)%num) /\
      ((exists required what,
           AnyPeriod.calculateVolatilityStopTrailing fuel series p m
           = Some (AnyPeriod.Threw (AnyPeriod.NeedAtLeast required what)))
       <-> (of_nat (length series) < p + int 1)%num) /\
      (AnyPeriod.calculateVolatilityStopTrailing fuel series p m
       = Some (AnyPeriod.Threw
                 (AnyPeriod.NeedAtLeast (p + int 1)%num "Volatility Stop"))
       <-> (of_nat (length series) < p + int 1)%num)) /\
  (forall (fuel : nat) (series : list (StockData Binary64.double))
          (k : nat) (m : Binary64.double),
      (length series <= 256)%nat -> (k < 256)%nat ->
      (length series < fuel)%nat ->
      AnyPeriod.calculateATR fuel series (of_nat k)
      = Some match calculateATR series k with
             | Ok atr => AnyPeriod.Returned atr
             | Throw _ =>
                 AnyPeriod.Threw
                   (AnyPeriod.NeedAtLeast (of_nat (k + 1)) "ATR")
             end /\
      AnyPeriod.calculateVolatilityStopTrailing fuel series (of_nat k) m
      = Some match calculateVolatilityStopTrailing series k m with
             | Ok rs => AnyPeriod.Returned rs
             | Throw _ =>
                 AnyPeriod.Threw
                   (AnyPeriod.NeedAtLeast (of_nat (k + 1)) "Volatility Stop")
             end).
Proof.
  assert (Hnat :
    (fails (calculateATR data period) <-> (length data < period + 1)%nat) /\
    (calculateATR data period = Throw (Error (atr_message period))
     <-> (length data < period + 1)%nat) /\
    (returns (calculateATR data period)
     <-> (period + 1 <= length data)%nat) /\
    (fails (calculateVolatilityStopTrailing data period multiplier)
     <-> (length data < period + 1)%nat) /\
    (calculateVolatilityStopTrailing data period multiplier
     = Throw (Error (trailing_message period))
     <-> (length data < period + 1)%nat) /\
    (returns (calculateVolatilityStopTrailing data period multiplier)
     <-> (period + 1 <= length data)%nat)).
  { unfold fails, returns.
    destruct (Nat.lt_ge_cases (length data) (period + 1)) as [H | H].
    - rewrite (calculateATR_short _ _ H), (trailing_short _ _ multiplier H).
      repeat split; intros; try lia; try reflexivity;
        try (eexists; reflexivity);
        match goal with
        | [ X : exists _, Throw _ = Ok _ |- _ ] => destruct X; discriminate
        end.
    - rewrite (calculateATR_long _ _ H), (trailing_long _ _ multiplier H).
      repeat split; intros; try lia; try discriminate;
        try (eexists; reflexivity);
        match goal with
        | [ X : exists _, Ok _ = Throw _ |- _ ] => destruct X; discriminate
        end. }
  destruct Hnat as [H1 [H2 [H3 [H4 [H5 H6]]]]].
  split; [exact H1 |]. split; [exact H2 |]. split; [exact H3 |].
  split; [exact H4 |]. split; [exact H5 |]. split; [exact H6 |].
  split.
  - intros fuel series p m.
    destruct (calculateATR_guard series p fuel) as [Ha Ha'].
    destruct (trailing_guard series p fuel m) as [Ht Ht'].
    unfold less in *.
    destruct (ltb (of_nat (length series)) (p + int 1)%num) eqn:E.
    + specialize (Ha eq_refl). specialize (Ht eq_refl).
      split; [split; [reflexivity | intros _; eexists; exact Ha] |].
      split; [split; [reflexivity | intros _; exact Ha] |].
      split; [split; [reflexivity | intros _; do 2 eexists; exact Ht] |].
      split; [reflexivity | intros _; exact Ht].
    + specialize (Ha' eq_refl). specialize (Ht' eq_refl).
      split; [split; [intros [e He]; elim (Ha' e He) | discriminate] |].
      split; [split; [intro He; elim (Ha' _ He) | discriminate] |].
      split; [split; [intros [r [what He]]; elim (Ht' r what He)
                     | discriminate] |].
      split; [intro He; elim (Ht' _ _ He) | discriminate].
  - intros fuel series k m Hb Hk Hfuel. now apply natural_period.
Qed.

(** On six days with the period 2. *)
Lemma C1_witness :
  (length (@six_days Binary64.double _) <= 256)%nat /\ (2 < 256)%nat /\
  (length (@six_days Binary64.double _) < 8)%nat /\
  AnyPeriod.calculateATR 8 six_days (of_nat 2)
  = Some match calculateATR six_days 2 with
         | Ok atr => AnyPeriod.Returned atr
         | Throw _ =>
             AnyPeriod.Threw (AnyPeriod.NeedAtLeast (of_nat (2 + 1)) "ATR")
         end.
Proof.
  assert (H1 : (length (@six_days Binary64.double _) <= 256)%nat)
    by (simpl; lia).
  assert (H2 : (2 < 256)%nat) by lia.
  assert (H3 : (length (@six_days Binary64.double _) < 8)%nat)
    by (simpl; lia).
  split; [exact H1 |]. split; [exact H2 |]. split; [exact H3 |].
  destruct (@C1_insufficient_data_iff _ binary64 six_days 2 (int 2))
    as [_ [_ [_ [_ [_ [_ [_ H]]]]]]].
  exact (proj1 (H 8%nat six_days 2%nat (int 2) H1 H2 H3)).
Defined.

(** The period is not checked.  With [atrPeriod = -1] on three days, and
    with [atrPeriod = 2.5] on nine days, the test of the guard fails, so
    nothing is thrown there, and [calculateVolatilityStopTrailing] throws
    a [TypeError] where it reads [data[i].close], with whatever fuel from
    16 on.  With [period = -1e20] on three days the test of the guard
    fails and [calculateATR] does not return, with whatever fuel. *)
Lemma C1_period_is_not_checked :
  ltb (of_nat (length (@three_days Binary64.double _)))
    (int (-1) + int 1)%num = false /\
  (forall more : nat,
      AnyPeriod.calculateVolatilityStopTrailing (16 + more) three_days
        (int (-1)) (int 2)
      = Some (AnyPeriod.Threw AnyPeriod.TypeError)) /\
  ltb (of_nat (length (@nine_days Binary64.double _)))
    (lit 5 2 + int 1)%num = false /\
  (forall more : nat,
      AnyPeriod.calculateVolatilityStopTrailing (16 + more) nine_days
        (lit 5 2) (int 2)
      = Some (AnyPeriod.Threw AnyPeriod.TypeError)) /\
  ltb (of_nat (length (@three_days Binary64.double _)))
    (int (- 10 ^ 20) + int 1)%num = false /\
  ~ (exists fuel r,
        AnyPeriod.calculateATR fuel three_days (int (- 10 ^ 20)) = Some r).
Proof.
  split; [vm_compute; reflexivity |].
  split; [intro more; apply trailing_more; vm_compute; reflexivity |].
  split; [vm_compute; reflexivity |].
  split; [intro more; apply trailing_more; vm_compute; reflexivity |].
  split; [vm_compute; reflexivity |].
  intros [fuel [r Hr]]. rewrite calculateATR_runs_for_ever in Hr.
  discriminate.
Qed.

(** On exact rationals the three cases read: above 10, below 3, and
    from 3 to 10. *)
Lemma recommend_exact (pct : Q) :
  (recommend pct = SELL <-> (10 < pct)%Q) /\
  (recommend pct = BUY <-> (pct < 3)%Q) /\
  (recommend pct = HOLD <-> (3 <= pct)%Q /\ (pct <= 10)%Q).
Proof.
  destruct (recommend_spec pct) as [Hs [Hb Hh]].
  rewrite Hs, Hb, Hh. rewrite greater_gt, less_lt.
  change (@int Q rational 10) with 10%Q. change (@int Q rational 3) with 3%Q.
  split; [reflexivity |]. split.
  - split; [intros [_ H]; exact H | intro H; split; [intro; lra | exact H]].
  - split.
    + intros [H1 H2]. split; apply Qnot_lt_le; assumption.
    + intros [H1 H2]. split; intro; lra.
Qed.

(** C2, as the code has it: in every arithmetic the returned [stopLoss]
    and [stopLossPercentage] are [currentPrice - atr * multiplier] and
    [(currentPrice - stopLoss) / currentPrice * 100] rounded to two
    decimals; the recommendation is SELL when the test [> 10] succeeds on
    the percentage before rounding, else BUY when the test [< 3] succeeds,
    else HOLD (on exact rationals: SELL above 10, BUY below 3, HOLD from 3
    to 10); for [currentPrice = 100], [atr = 5], [multiplier = 2] the
    result is [stopLoss = 90], [stopLossPercentage = 10], HOLD, on doubles
    (the percentage is the double 10 itself) and on exact rationals. *)
Theorem C2_static_stop {number : Type} {A : Arith number}
  (currentPrice atr multiplier : number) :
  let r := calculateVolatilityStop currentPrice atr multiplier in
  let stopLoss := (currentPrice - atr * multiplier)%num in
  let pct := (((currentPrice - stopLoss) / currentPrice) * int 100)%num in
  (vs_stopLoss r = toFixed2 stopLoss /\
   vs_stopLossPercentage r = toFixed2 pct) /\
  ((vs_recommendation r = SELL <-> (pct > int 10)%num) /\
   (vs_recommendation r = BUY
    <-> ~ (pct > int 10)%num /\ (pct < int 3)%num) /\
   (vs_recommendation r = HOLD
    <-> ~ (pct > int 10)%num /\ ~ (pct < int 3)%num)) /\
  (forall price a m : Q,
      let r := calculateVolatilityStop price a m in
      let pct := (((price - (price - a * m)) / price) * 100)%Q in
      (vs_recommendation r = SELL <-> (10 < pct)%Q) /\
      (vs_recommendation r = BUY <-> (pct < 3)%Q) /\
      (vs_recommendation r = HOLD <-> (3 <= pct)%Q /\ (pct <= 10)%Q)) /\
  calculateVolatilityStop (A := binary64) (int 100) (int 5) (int 2)
  = {| vs_atr := int 5; vs_stopLoss := int 90;
       vs_stopLossPercentage := int 10; vs_recommendation := HOLD |} /\
  calculateVolatilityStop (A := rational) 100 5 2
  = {| vs_atr := 5; vs_stopLoss := 90;
       vs_stopLossPercentage := 10; vs_recommendation := HOLD |}.
Proof.
  cbv zeta. rewrite calculateVolatilityStop_eq. cbv zeta. simpl.
  split; [split; reflexivity |]. split; [apply recommend_spec |].
  split; [intros price a m; apply recommend_exact |].
  split; vm_compute; reflexivity.
Qed.

(** C2 as stated fails: the returned [stopLoss] is rounded.  For
    [currentPrice = 100], [atr = 1/16], [multiplier = 1] the stop is
    99.9375 and the returned one is 99.94, on doubles and on exact
    rationals. *)
Lemma C2_returned_stop_is_rounded :
  (minus (int 100) (times (Binary64.of_dyadic 1 (-4)) (int 1))
   = Binary64.of_dyadic 1599 (-4) /\
   vs_stopLoss
     (calculateVolatilityStop (int 100) (Binary64.of_dyadic 1 (-4)) (int 1))
   = divide (int 9994) (int 100) /\
   less (Binary64.of_dyadic 1599 (-4)) (divide (int 9994) (int 100))) /\
  ((vs_stopLoss (calculateVolatilityStop 100 (1 # 16) 1) == 99.94)%Q /\
   ~ (vs_stopLoss (calculateVolatilityStop 100 (1 # 16) 1)
      == 100 - (1 # 16) * 1)%Q).
Proof.
  split.
  - split; [vm_compute; reflexivity |].
    split; vm_compute; reflexivity.
  - split; [vm_compute; reflexivity |].
    vm_compute. discriminate.
Qed.

(** The thresholds look at the percentage before rounding: at
    [atr = 767/256] it is 2.99609375, below 3, which gives BUY, and it is
    returned as 3, on doubles and on exact rationals. *)
Remark threshold_before_rounding :
  calculateVolatilityStop (A := binary64)
    (int 100) (Binary64.of_dyadic 767 (-8)) (int 1)
  = {| vs_atr := int 3; vs_stopLoss := int 97;
       vs_stopLossPercentage := int 3; vs_recommendation := BUY |} /\
  calculateVolatilityStop (A := rational) 100 (767 # 256) 1
  = {| vs_atr := 3; vs_stopLoss := 97;
       vs_stopLossPercentage := 3; vs_recommendation := BUY |}.
Proof. split; vm_compute; reflexivity. Qed.



(** On doubles the six closes give the same value, 53/16. *)
Remark six_days_atr_binary64 :
  calculateATR (A := binary64) six_days 2 = Ok (Binary64.of_dyadic 53 (-4)).
Proof. vm_compute. reflexivity. Qed.

(** The loops themselves are the same fold in every arithmetic: the sum
    of the first [period] true ranges from the left, divided by [period],
    then the smoothing steps from the left. *)
Remark calculateATR_fold {number : Type} {A : Arith number}
  (data : list (StockData number)) (period : nat) :
  (period + 1 <= length data)%nat ->
  calculateATR data period
  = Ok (fold_left
          (fun atr tr =>
             ((atr * (of_nat period - int 1) + tr) / of_nat period)%num)
          (skipn period (true_ranges data))
          (fold_left plus (firstn period (true_ranges data)) (int 0)
           / of_nat period)%num).
Proof. apply calculateATR_long. Qed.

(** C4: on a valid series the trailing computation is the fold of the
    recurrence over the points from index [atrPeriod] on, in every
    arithmetic.  The first evaluated point has trend UP and stop
    [price - multiplier * atr]; each later point follows its predecessor
    by one move of the recurrence ([trail_move]); every returned point is
    its input point rendered in its state. *)
Theorem C4_trailing_fold {number : Type} {A : Arith number}
  (data : list (StockData number)) (atrPeriod : nat) (multiplier : number) :
  (atrPeriod + 1 <= length data)%nat ->
  exists atr pts,
    calculateATR data atrPeriod = Ok atr /\
    map fst pts = skipn atrPeriod data /\
    (exists d0 rest,
        nth_error data atrPeriod = Some d0 /\
        pts = (d0, ((close d0 - multiplier * atr)%num, UP)) :: rest) /\
    Chain (follows multiplier atr) pts /\
    calculateVolatilityStopTrailing data atrPeriod multiplier
    = Ok (map (fun p => render atr (fst p) (snd p)) pts).
Proof.
  intro H.
  exists (atr_value data atrPeriod),
    (trail_points multiplier (atr_value data atrPeriod) (skipn atrPeriod data)).
  split; [now apply calculateATR_long |].
  split; [apply trail_points_fst |].
  split; [| split; [apply trail_points_chain | now apply trailing_long]].
  destruct (@nth_error_in_range _ data atrPeriod) as [d0 Hd0]; [lia |].
  rewrite (skipn_nth_error _ _ Hd0).
  destruct (trail_points_head multiplier (atr_value data atrPeriod) d0
              (skipn (S atrPeriod) data)) as [rest Hrest].
  exists d0, rest. split; [exact Hd0 | exact Hrest].
Qed.

(** The fold on [nine_days] with [atrPeriod = 2], [multiplier = 1], on
    doubles. *)
Lemma C4_witness :
  (2 + 1 <= length (@nine_days Binary64.double _))%nat /\
  exists atr pts,
    calculateATR (A := binary64) nine_days 2 = Ok atr /\
    map fst pts = skipn 2 nine_days /\
    (exists d0 rest,
        nth_error nine_days 2 = Some d0 /\
        pts = (d0, (minus (close d0) (times (int 1) atr), UP)) :: rest) /\
    Chain (follows (int 1) atr) pts /\
    calculateVolatilityStopTrailing nine_days 2 (int 1)
    = Ok (map (fun p => render atr (fst p) (snd p)) pts).
Proof.
  assert (H : (2 + 1 <= length (@nine_days Binary64.double _))%nat)
    by (simpl; lia).
  split; [exact H |].
  exact (C4_trailing_fold nine_days 2 (int 1) H).
Defined.



(** Across a flip the order may break: the UP points before and after
    the DOWN stretch of [nine_days] have stops 100.81 and then 99.81. *)
Remark flip_resets_the_ratchet :
  map (fun r => (r_trend r, r_stopLoss r)) nine_days_points
  = [(UP, 98.81); (UP, 99.81); (UP, 100.81); (DOWN, 103.19);
     (DOWN, 102.19); (DOWN, 101.19); (UP, 99.81)]%Q.
Proof. vm_compute. reflexivity. Qed.

(** On doubles [nine_days] gives the same trends, and the doubles nearest
    to the same stops. *)
Remark nine_days_binary64 :
  exists rs : list (VolatilityStopResult Binary64.double),
    calculateVolatilityStopTrailing nine_days 2 (int 1) = Ok rs /\
    map (@r_trend _) rs = [UP; UP; UP; DOWN; DOWN; DOWN; UP] /\
    map (@r_stopLoss _) rs
    = [divide (int 9881) (int 100); divide (int 9981) (int 100);
       divide (int 10081) (int 100); divide (int 10319) (int 100);
       divide (int 10219) (int 100); divide (int 10119) (int 100);
       divide (int 9981) (int 100)].
Proof.
  eexists. split; [vm_compute; reflexivity |].
  split; vm_compute; reflexivity.
Qed.

(** C6: on a series of [n >= atrPeriod + 1] points the returned sequence
    has [n - atrPeriod] elements, and its [k]-th element carries the date
    of input point [atrPeriod + k], in every arithmetic. *)
Theorem C6_one_point_per_index {number : Type} {A : Arith number}
  (data : list (StockData number)) (atrPeriod : nat) (multiplier : number) :
  (atrPeriod + 1 <= length data)%nat ->
  exists rs,
    calculateVolatilityStopTrailing data atrPeriod multiplier = Ok rs /\
    length rs = (length data - atrPeriod)%nat /\
    forall k, (k < length data - atrPeriod)%nat ->
      exists r d,
        nth_error rs k = Some r /\
        nth_error data (atrPeriod + k) = Some d /\
        r_date r = date d.
Proof.
  intro H. exists (trailing_value data atrPeriod multiplier).
  split; [now apply trailing_long |].
  split; [apply trailing_value_length |].
  intros k Hk.
  destruct (@nth_error_in_range _ (trailing_value data atrPeriod multiplier) k)
    as [r Hr]; [now rewrite trailing_value_length |].
  destruct (trailing_value_nth _ _ _ _ Hr) as [d [st [Hd [_ ->]]]].
  exists (render (atr_value data atrPeriod) d st), d.
  repeat split; assumption.
Qed.

(** Nine input points and [atrPeriod = 2]: seven returned points. *)
Lemma C6_witness :
  (2 + 1 <= length (@nine_days Binary64.double _))%nat /\
  exists rs,
    calculateVolatilityStopTrailing (A := binary64) nine_days 2 (int 1)
    = Ok rs /\
    length rs = 7%nat.
Proof.
  assert (H : (2 + 1 <= length (@nine_days Binary64.double _))%nat)
    by (simpl; lia).
  split; [exact H |].
  destruct (C6_one_point_per_index nine_days 2 (int 1) H) as [rs [Hrun [Hlen _]]].
  exists rs. split; [exact Hrun | exact Hlen].
Defined.

(** C7, as the code has it: on a series shorter than [period + 1] the
    error of [calculateATR] is an [Error] whose message names the required
    length [period + 1], and nothing else about the call: any other series
    that is too short raises the same error.  This holds in every
    arithmetic. *)
Theorem C7_error_names_required_length {number : Type} {A : Arith number}
  (data : list (StockData number)) (period : nat) :
  (length data < period + 1)%nat ->
  calculateATR data period
  = Throw (Error ("Need at least " ++ to_string (period + 1)
                    ++ " data points to calculate ATR")) /\
  (forall e, calculateATR data period = Throw e ->
             required_length e = Some (period + 1)%nat) /\
  (forall data' : list (StockData number),
      (length data' < period + 1)%nat ->
      calculateATR data' period = calculateATR data period).
Proof.
  intro H. rewrite (calculateATR_short _ _ H). split; [reflexivity |]. split.
  - intros e He. inversion He. apply required_length_atr.
  - intros data' H'. apply calculateATR_short, H'.
Qed.

(** Ten points and [period = 14]: the message asks for 15. *)
Lemma C7_witness :
  (length (@ten_days Binary64.double _) < 14 + 1)%nat /\
  calculateATR (A := binary64) ten_days 14
  = Throw (Error "Need at least 15 data points to calculate ATR").
Proof.
  assert (H : (length (@ten_days Binary64.double _) < 14 + 1)%nat)
    by (simpl; lia).
  split; [exact H |].
  exact (proj1 (C7_error_names_required_length ten_days 14 H)).
Defined.

(** C7 as stated fails: the error does not carry the actual length.  No
    reading of the error gives the length of the series that caused it:
    series of ten and of three points raise the same error. *)
Lemma C7_actual_length_not_carried :
  ~ (exists actual : JsError -> nat,
       forall (data : list (StockData Binary64.double)) period e,
         calculateATR data period = Throw e -> actual e = length data).
Proof.
  intros [actual H].
  pose proof (H ten_days 14%nat _ eq_refl) as H10.
  pose proof (H three_days 14%nat _ eq_refl) as H3.
  simpl in H10, H3. congruence.
Qed.

(** C8, as the code has it: the ATR depends on the order of the series.
    There is a valid series with true ranges that are not constant whose
    reversal changes the result: the closes 10, 12, 11, 15 with
    [period = 2] give 2.75, and 2.25 when reversed, on doubles and on
    exact rationals. *)
Theorem C8_reversal_may_change_atr :
  (exists (data : list (StockData Binary64.double)) period a b,
      (period + 1 <= length data)%nat /\
      varies (true_ranges data) /\
      calculateATR data period = Ok a /\
      calculateATR (rev data) period = Ok b /\
      differ a b) /\
  (exists (data : list (StockData Q)) period a b,
      (period + 1 <= length data)%nat /\
      varies (true_ranges data) /\
      calculateATR data period = Ok a /\
      calculateATR (rev data) period = Ok b /\
      ~ (a == b)%Q).
Proof.
  split.
  - exists four_days, 2%nat, (Binary64.of_dyadic 11 (-2)),
      (Binary64.of_dyadic 9 (-2)).
    split; [simpl; lia |]. split.
    + exists (int 1), (int 2). vm_compute. auto.
    + split; [vm_compute; reflexivity |].
      split; [vm_compute; reflexivity |].
      right. vm_compute. reflexivity.
  - exists four_days, 2%nat, (11 # 4)%Q, (9 # 4)%Q.
    split; [simpl; lia |]. split.
    + exists 1%Q, 2%Q. vm_compute. auto.
    + split; [vm_compute; reflexivity |].
      split; [vm_compute; reflexivity |]. discriminate.
Qed.

(** C8 as stated fails: the closes 10, 12, 11 have true ranges 2 and 1,
    the reversed series has true ranges 1 and 2, and with [period = 2] both
    orders give the ATR 1.5, on doubles and on exact rationals. *)
Lemma C8_reversal_can_keep_atr :
  ((2 + 1 <= length (@three_days Binary64.double _))%nat /\
   varies (true_ranges (@three_days Binary64.double _)) /\
   rev (@three_days Binary64.double _) <> three_days /\
   calculateATR (A := binary64) three_days 2
   = Ok (Binary64.of_dyadic 3 (-1)) /\
   calculateATR (A := binary64) (rev three_days) 2
   = Ok (Binary64.of_dyadic 3 (-1))) /\
  ((2 + 1 <= length (@three_days Q _))%nat /\
   varies (true_ranges (@three_days Q _)) /\
   rev (@three_days Q _) <> three_days /\
   calculateATR (A := rational) three_days 2 = Ok (3 # 2)%Q /\
   calculateATR (A := rational) (rev three_days) 2 = Ok (3 # 2)%Q).
Proof.
  split.
  - split; [simpl; lia |]. split.
    + exists (int 1), (int 2). vm_compute. auto.
    + split; [discriminate |]. split; vm_compute; reflexivity.
  - split; [simpl; lia |]. split.
    + exists 1%Q, 2%Q. vm_compute. auto.
    + split; [discriminate |]. split; vm_compute; reflexivity.
Qed.

(** C9: every numeric field of the result of [calculateVolatilityStop]
    and of every point of [calculateVolatilityStopTrailing] is
    [Number(x.toFixed(2))] of the value computed, in every arithmetic; the
    recommendation and the signal are decided on the values before
    rounding, and each state of the trailing recurrence follows from the
    stop of the previous state before rounding.  On exact rationals
    [Number(x.toFixed(2))] is a whole number of hundredths within half a
    hundredth of [x].  On doubles, the arithmetic the code runs in, each
    of these fields is the value computed rounded to two decimals: the
    double of the decimal whose hundredths are the integer nearest to 100
    times the value. *)
Theorem C9_outputs_rounded {number : Type} {A : Arith number}
  (currentPrice atr0 multiplier0 : number)
  (data : list (StockData number)) (atrPeriod : nat) (multiplier : number) :
  (atrPeriod + 1 <= length data)%nat ->
  (let r := calculateVolatilityStop currentPrice atr0 multiplier0 in
   let stopLoss := (currentPrice - atr0 * multiplier0)%num in
   let pct := (((currentPrice - stopLoss) / currentPrice) * int 100)%num in
   vs_atr r = toFixed2 atr0 /\
   vs_stopLoss r = toFixed2 stopLoss /\
   vs_stopLossPercentage r = toFixed2 pct /\
   vs_recommendation r = recommend pct) /\
  (exists atr pts rs,
      calculateATR data atrPeriod = Ok atr /\
      calculateVolatilityStopTrailing data atrPeriod multiplier = Ok rs /\
      map fst pts = skipn atrPeriod data /\
      Chain (follows multiplier atr) pts /\
      Forall2 (rendered atr) rs pts) /\
  (forall x : Q,
      two_decimals (toFixed2 x) /\ (Qabs (toFixed2 x - x) <= 1 # 200)%Q) /\
  (forall price a m : Binary64.double,
      let r := calculateVolatilityStop price a m in
      let stopLoss := (price - a * m)%num in
      let pct := (((price - stopLoss) / price) * int 100)%num in
      rounded_double a (vs_atr r) /\
      rounded_double stopLoss (vs_stopLoss r) /\
      rounded_double pct (vs_stopLossPercentage r)) /\
  (forall (series : list (StockData Binary64.double)) (period : nat)
          (m : Binary64.double)
          (rs : list (VolatilityStopResult Binary64.double)),
      calculateVolatilityStopTrailing series period m = Ok rs ->
      exists atr pts,
        calculateATR series period = Ok atr /\
        map fst pts = skipn period series /\
        Chain (follows m atr) pts /\
        Forall2 (rounded_point atr) rs pts).
Proof.
  intro H. split; [| split; [| split; [| split]]].
  - cbv zeta. rewrite calculateVolatilityStop_eq. cbv zeta. simpl.
    repeat split.
  - exists (atr_value data atrPeriod),
      (trail_points multiplier (atr_value data atrPeriod)
         (skipn atrPeriod data)),
      (trailing_value data atrPeriod multiplier).
    split; [now apply calculateATR_long |].
    split; [now apply trailing_long |].
    split; [apply trail_points_fst |].
    split; [apply trail_points_chain |].
    apply Forall2_rendered.
  - intro x. split; [apply toFixed2_two_decimals | apply toFixed2_near].
  - intros price a m. cbv zeta.
    unfold calculateVolatilityStop. cbn [vs_atr vs_stopLoss
      vs_stopLossPercentage].
    repeat split; apply toFixed2_rounded.
  - intros series period m rs Hrs.
    apply trailing_ok_inv in Hrs. destruct Hrs as [Hlen ->].
    exists (atr_value series period),
      (trail_points m (atr_value series period) (skipn period series)).
    split; [now apply calculateATR_long |].
    split; [apply trail_points_fst |].
    split; [apply trail_points_chain |].
    eapply Forall2_impl; [| apply Forall2_rendered].
    intros r p. apply rendered_rounded.
Qed.

(** The stop 99.9375 is returned as 99.94, on exact rationals and on
    doubles. *)
Lemma C9_witness :
  (2 + 1 <= length (@nine_days Q _))%nat /\
  vs_stopLoss (calculateVolatilityStop (A := rational) 100 (1 # 16) 1)
  = toFixed2 (100 - (1 # 16) * 1)%Q /\
  two_decimals (toFixed2 (1599 # 16)) /\
  rounded_double (int 100 - lit 1 16 * int 1)%num
    (vs_stopLoss (calculateVolatilityStop (int 100) (lit 1 16) (int 1))) /\
  vs_stopLoss
    (calculateVolatilityStop (A := binary64) (int 100) (lit 1 16) (int 1))
  = lit 9994 100.
Proof.
  assert (H : (2 + 1 <= length (@nine_days Q _))%nat) by (simpl; lia).
  split; [exact H |].
  destruct (C9_outputs_rounded 100%Q (1 # 16)%Q 1%Q nine_days 2 1%Q H)
    as [[_ [Hstop _]] [_ [Hround [Hdouble _]]]].
  split; [exact Hstop |].
  split; [exact (proj1 (Hround (1599 # 16))) |].
  split; [exact (proj1 (proj2 (Hdouble (int 100) (lit 1 16) (int 1)))) |].
  vm_compute. reflexivity.
Defined.

(** C10: in every arithmetic the signal of a returned point is BUY
    exactly when its trend is UP, the test [close > stop] succeeds on the
    stop before rounding and the test [< 3] succeeds on the distance
    percentage; it is SELL exactly when its trend is DOWN, the test
    [close < stop] succeeds and the test [< 3] succeeds on the distance
    percentage; it is HOLD in every other case. *)
Theorem C10_signal_conditions {number : Type} {A : Arith number}
  (data : list (StockData number)) (atrPeriod : nat) (multiplier : number)
  (rs : list (VolatilityStopResult number)) (k : nat)
  (r : VolatilityStopResult number) :
  calculateVolatilityStopTrailing data atrPeriod multiplier = Ok rs ->
  nth_error rs k = Some r ->
  exists atr d stop,
    let pct := Math_abs (((close d - stop) / close d) * int 100)%num in
    calculateATR data atrPeriod = Ok atr /\
    nth_error data (atrPeriod + k) = Some d /\
    nth_error (trail_points multiplier atr (skipn atrPeriod data)) k
    = Some (d, (stop, r_trend r)) /\
    r_stopLoss r = toFixed2 stop /\
    (r_signal r = BUY <->
     r_trend r = UP /\ (close d > stop)%num /\ (pct < int 3)%num) /\
    (r_signal r = SELL <->
     r_trend r = DOWN /\ (close d < stop)%num /\ (pct < int 3)%num) /\
    (r_signal r = HOLD <->
     ~ (r_trend r = UP /\ (close d > stop)%num /\ (pct < int 3)%num) /\
     ~ (r_trend r = DOWN /\ (close d < stop)%num /\ (pct < int 3)%num)).
Proof.
  intros Hrun Hr.
  destruct (trailing_ok_inv _ _ _ Hrun) as [Hlen ->].
  destruct (trailing_value_nth _ _ _ _ Hr) as [d [[stop t] [Hd [Hst ->]]]].
  exists (atr_value data atrPeriod), d, stop. simpl.
  split; [now apply calculateATR_long |].
  split; [exact Hd |]. split; [exact Hst |]. split; [reflexivity |].
  split; [apply signal_of_buy |]. split; [apply signal_of_sell |].
  apply signal_of_hold.
Qed.

(** On doubles, the sixth of [seven_days] closes at 100 after a flip to
    DOWN, with the stop at 102.625: a SELL. *)
Lemma C10_witness :
  exists (rs : list (VolatilityStopResult Binary64.double)) r stop,
    calculateVolatilityStopTrailing seven_days 2 (int 1) = Ok rs /\
    nth_error rs 3 = Some r /\
    r_signal r = SELL /\
    r_stopLoss r = toFixed2 stop /\
    r_trend r = DOWN /\ less (int 100) stop.
Proof.
  destruct seven_days_binary64 as [rs [Hrun [Hsig _]]].
  destruct rs as [| r0 [| r1 [| r2 [| r rs]]]]; try discriminate Hsig.
  assert (Hsell : r_signal r = SELL) by (simpl in Hsig; congruence).
  destruct (C10_signal_conditions seven_days 2 (int 1) 3 Hrun eq_refl)
    as [atr [d [stop [_ [Hd [_ [Hstop [_ [Hs _]]]]]]]]].
  exists (r0 :: r1 :: r2 :: r :: rs), r, stop.
  split; [exact Hrun |]. split; [reflexivity |]. split; [exact Hsell |].
  split; [exact Hstop |].
  inversion Hd; subst d.
  destruct (proj1 Hs Hsell) as [Ht [Hlt _]].
  split; [exact Ht | exact Hlt].
Defined.

(** On exact rationals [seven_days] gives the same trends and signals,
    and the stops 99.38, 100.38, 100.38, 102.63 and 101.38. *)
Remark seven_days_signals :
  map (fun r => (r_trend r, r_signal r)) seven_days_points
  = [(UP, BUY); (UP, BUY); (UP, BUY); (DOWN, SELL); (UP, BUY)] /\
  Forall2 Qeq (map (@r_stopLoss _) seven_days_points)
    [99.38; 100.38; 100.38; 102.63; 101.38]%Q.
Proof.
  split; [vm_compute; reflexivity |].
  repeat constructor.
Qed.

(* ================================================================== *)
(** * Part IV: further properties *)

(** ** [volatility.ts] on exact rationals *)

Section ExactProperties.

#[local] Open Scope Q_scope.

(** X1: for a bar with [low <= high], the true range is [high - low]
    when the previous close lies within the bar, [high - previousClose]
    when the bar opens a gap above the previous close, and
    [previousClose - low] when it opens a gap below it (exact
    rationals). *)
Theorem true_range_by_gap (high low previousClose : Q) :
  low <= high ->
  (low <= previousClose <= high ->
   calculateTrueRange high low previousClose == high - low) /\
  (previousClose < low ->
   calculateTrueRange high low previousClose == high - previousClose) /\
  (high < previousClose ->
   calculateTrueRange high low previousClose == previousClose - low).
Proof.
  intro Hlh. rewrite true_range_unfold.
  repeat split; intro Hc;
    apply Q.max_case_strong; try (intros x y Hxy; rewrite Hxy; tauto);
    apply Q.max_case_strong; try (intros x y Hxy; rewrite Hxy; tauto);
    try (apply Qabs_case); try (apply Qabs_case); intros; try lra.
Qed.

(** A bar from 10 to 12 after a close at 9: the true range is 3. *)
Lemma true_range_by_gap_witness :
  10 <= 12 /\ calculateTrueRange 12 10 9 == 12 - 9.
Proof.
  assert (H : 10 <= 12) by (vm_compute; discriminate).
  split; [exact H |].
  apply (proj1 (proj2 (@true_range_by_gap 12 10 9 H))).
  vm_compute. reflexivity.
Defined.

(** X3: with [period >= 1], the ATR of a series that is long enough is
    never negative, whatever the bars are, also for a bar with
    [high < low] (exact rationals). *)
Theorem atr_never_negative (data : list (StockData Q)) (period : nat) :
  (1 <= period)%nat -> (period + 1 <= length data)%nat ->
  exists atr, calculateATR data period = Ok atr /\ 0 <= atr.
Proof.
  intros Hp Hlen. exists (atr_value data period).
  split; [now apply calculateATR_long |].
  destruct (Forall_upper (true_ranges data)) as [hi Hhi].
  apply (@atr_value_between data period 0 hi Hp Hlen).
  apply Forall_and; [apply true_ranges_nonneg | exact Hhi].
Qed.

Lemma atr_never_negative_witness :
  exists atr, calculateATR (A := rational) six_days 2 = Ok atr /\ 0 <= atr.
Proof.
  apply atr_never_negative; [lia | simpl; lia].
Defined.

(** X7: with [atrPeriod >= 1] and [multiplier >= 0], every point returned
    by [calculateVolatilityStopTrailing] has its stop on the side of the
    close that its trend names and at most [multiplier * atr] away from
    it before rounding: between [close - multiplier * atr] and [close]
    when the trend is UP, between [close] and [close + multiplier * atr]
    when it is DOWN; the rounded fields keep the side (exact
    rationals). *)
Theorem trailing_stop_within_band (data : list (StockData Q))
  (atrPeriod : nat) (multiplier : Q) (rs : list (VolatilityStopResult Q))
  (k : nat) (r : VolatilityStopResult Q) :
  (1 <= atrPeriod)%nat -> 0 <= multiplier ->
  calculateVolatilityStopTrailing data atrPeriod multiplier = Ok rs ->
  nth_error rs k = Some r ->
  exists atr d stop,
    calculateATR data atrPeriod = Ok atr /\ 0 <= atr /\
    nth_error data (atrPeriod + k) = Some d /\
    r_stopLoss r = toFixed2 stop /\
    (r_trend r = UP ->
     close d - multiplier * atr <= stop /\ stop <= close d) /\
    (r_trend r = DOWN ->
     close d <= stop /\ stop <= close d + multiplier * atr) /\
    (r_trend r = UP -> r_stopLoss r <= r_close r) /\
    (r_trend r = DOWN -> r_close r <= r_stopLoss r).
Proof.
  intros Hp Hm Hrun Hr.
  destruct (trailing_ok_inv _ _ _ Hrun) as [Hlen ->].
  destruct (trailing_value_nth _ _ _ _ Hr) as [d [[stop t] [Hd [Hst ->]]]].
  pose proof (@atr_value_nonneg data atrPeriod Hp Hlen) as Hatr.
  assert (Hband : within_band multiplier (atr_value data atrPeriod)
                    (close d) (stop, t)).
  { assert (Hnn : 0 <= multiplier * atr_value data atrPeriod)
      by now apply Qmult_le_0_compat.
    exact (Forall_nth_error k (trail_points_band _ Hnn) Hst). }
  exists (atr_value data atrPeriod), d, stop.
  split; [now apply calculateATR_long |]. split; [exact Hatr |].
  split; [exact Hd |]. split; [reflexivity |].
  unfold within_band in Hband.
  destruct t; simpl in Hband |- *; destruct Hband as [H1 H2].
  - split; [intros _; split; assumption |].
    split; [discriminate |].
    split; [intros _; now apply toFixed2_mono | discriminate].
  - split; [discriminate |].
    split; [intros _; split; assumption |].
    split; [discriminate | intros _; now apply toFixed2_mono].
Qed.

(** The fourth point of [nine_days] follows a flip to DOWN: its stop,
    103.19, is above its close, 100. *)
Lemma trailing_stop_within_band_witness :
  exists r,
    nth_error nine_days_points 3 = Some r /\
    r_trend r = DOWN /\ r_close r <= r_stopLoss r.
Proof.
  assert (Hp : (1 <= 2)%nat) by lia.
  assert (Hm : 0 <= 1) by (vm_compute; discriminate).
  assert (Hrun : calculateVolatilityStopTrailing nine_days 2 1
                 = Ok nine_days_points) by (vm_compute; reflexivity).
  destruct (nth_error nine_days_points 3) as [r |] eqn:Hr;
    [| discriminate Hr].
  exists r. split; [reflexivity |].
  assert (Ht : r_trend r = DOWN)
    by (vm_compute in Hr; injection Hr as <-; reflexivity).
  split; [exact Ht |].
  destruct (@trailing_stop_within_band nine_days 2 1 nine_days_points 3 r
              Hp Hm Hrun Hr)
    as [atr [d [stop [_ [_ [_ [_ [_ [_ [_ Hdown]]]]]]]]]].
  exact (Hdown Ht).
Defined.

End ExactProperties.

(** ** [volatility.ts] on doubles: NaN and division by zero *)

Section DoubleProperties.

#[local] Open Scope num_scope.

(** X8: on doubles, [calculateATR] with [period = 0] does not throw on a
    series that is not empty: the seed is [0 / 0] and the result is NaN,
    whatever the bars are. *)
Theorem atr_period_zero_is_nan (data : list (StockData Binary64.double)) :
  (1 <= length data)%nat ->
  calculateATR (A := binary64) data 0 = Ok S754_nan.
Proof.
  intro H. rewrite calculateATR_long by (simpl; lia).
  f_equal. apply atr_value_zero.
Qed.

Lemma atr_period_zero_is_nan_witness :
  calculateATR (A := binary64) three_days 0 = Ok S754_nan.
Proof.
  apply atr_period_zero_is_nan. simpl. lia.
Defined.

(** X9: on doubles, when the price, the ATR or the multiplier is NaN,
    [calculateVolatilityStop] recommends HOLD, and the stop and its
    percentage are NaN: both tests of the recommendation fail on NaN. *)
Theorem static_stop_of_nan (currentPrice atr multiplier : Binary64.double) :
  currentPrice = S754_nan \/ atr = S754_nan \/ multiplier = S754_nan ->
  let r := calculateVolatilityStop currentPrice atr multiplier in
  vs_recommendation r = HOLD /\
  vs_stopLoss r = S754_nan /\
  vs_stopLossPercentage r = S754_nan.
Proof.
  intros H r. subst r. rewrite calculateVolatilityStop_eq. cbv zeta.
  assert (Hstop : currentPrice - atr * multiplier = S754_nan).
  { destruct H as [-> | [-> | ->]].
    - apply nan_minus_l.
    - now rewrite nan_times_l, nan_minus_r.
    - now rewrite nan_times_r, nan_minus_r. }
  rewrite Hstop, nan_minus_r. simpl. repeat split.
Qed.

(** The ATR of a request with [atrPeriod = 0]. *)
Lemma static_stop_of_nan_witness :
  vs_recommendation
    (calculateVolatilityStop (A := binary64) (int 100) S754_nan (int 2))
  = HOLD.
Proof.
  apply (@static_stop_of_nan (int 100) S754_nan (int 2)).
  right. left. reflexivity.
Defined.

(** X10: on doubles, a price of [0] with a positive finite
    [atr * multiplier] gives SELL: the stop is [-(atr * multiplier)] and
    the percentage, a division by zero, is [Infinity]. *)
Theorem static_stop_of_zero_price (atr multiplier : Binary64.double)
  (m : positive) (e : Z) :
  atr * multiplier = S754_finite false m e ->
  calculateVolatilityStop (int 0) atr multiplier
  = {| vs_atr := toFixed2 atr;
       vs_stopLoss := toFixed2 (S754_finite true m e);
       vs_stopLossPercentage := S754_infinity false;
       vs_recommendation := SELL |}.
Proof.
  intro H. rewrite calculateVolatilityStop_eq. cbv zeta. rewrite H.
  reflexivity.
Qed.

(** ATR 5 and multiplier 2: [10 = 5 * 2 ^ 1] written with 53 bits. *)
Lemma static_stop_of_zero_price_witness :
  vs_recommendation
    (calculateVolatilityStop (A := binary64) (int 0) (int 5) (int 2))
  = SELL.
Proof.
  assert (H : @times _ binary64 (int 5) (int 2)
              = S754_finite false 5629499534213120 (-49))
    by (vm_compute; reflexivity).
  rewrite (static_stop_of_zero_price (int 5) (int 2) H). reflexivity.
Defined.

(** X11: on doubles, [calculateVolatilityStopTrailing] with
    [atrPeriod = 0] returns one point for every bar of a series that is
    not empty, each with trend UP, signal HOLD, and NaN for the ATR, the
    stop and its percentage. *)
Theorem trailing_period_zero (data : list (StockData Binary64.double))
  (multiplier : Binary64.double) :
  (1 <= length data)%nat ->
  calculateVolatilityStopTrailing data 0 multiplier
  = Ok (map (fun d =>
               {| r_date := date d;
                  r_close := toFixed2 (close d);
                  r_atr := S754_nan;
                  r_stopLoss := S754_nan;
                  r_stopLossPercentage := S754_nan;
                  r_trend := UP;
                  r_signal := HOLD |}) data).
Proof.
  intro H. rewrite trailing_long by (simpl; lia). f_equal.
  unfold trailing_value. cbv zeta. rewrite atr_value_zero.
  simpl skipn. rewrite nan_points.
  apply map_ext. intro d. apply nan_render.
Qed.

Lemma trailing_period_zero_witness :
  exists rs,
    calculateVolatilityStopTrailing (A := binary64) three_days 0 (int 2)
    = Ok rs /\
    map (@r_signal _) rs = [HOLD; HOLD; HOLD].
Proof.
  assert (H : (1 <= length (@three_days Binary64.double _))%nat)
    by (simpl; lia).
  eexists. split; [exact (trailing_period_zero three_days (int 2) H) |].
  reflexivity.
Defined.

End DoubleProperties.

(** ** The two stops agree on the first point *)

(** X12: where multiplication commutes, as it does on doubles and on
    exact rationals, the first point that
    [calculateVolatilityStopTrailing] returns has trend UP and the [atr]
    and [stopLoss] that [calculateVolatilityStop] returns for the close at
    index [atrPeriod], the ATR of the series and the same multiplier. *)
Theorem first_trailing_point_is_static_stop {number : Type} {A : Arith number}
  (data : list (StockData number)) (atrPeriod : nat) (multiplier : number) :
  (forall x y : number, (x * y)%num = (y * x)%num) ->
  (atrPeriod + 1 <= length data)%nat ->
  exists atr d r rest,
    calculateATR data atrPeriod = Ok atr /\
    nth_error data atrPeriod = Some d /\
    calculateVolatilityStopTrailing data atrPeriod multiplier
    = Ok (r :: rest) /\
    r_trend r = UP /\
    r_atr r = vs_atr (calculateVolatilityStop (close d) atr multiplier) /\
    r_stopLoss r
    = vs_stopLoss (calculateVolatilityStop (close d) atr multiplier).
Proof.
  intros Hcomm Hlen.
  destruct (@nth_error_in_range _ data atrPeriod) as [d Hd]; [lia |].
  destruct (trail_points_head multiplier (atr_value data atrPeriod) d
              (skipn (S atrPeriod) data)) as [points Hpoints].
  exists (atr_value data atrPeriod), d,
    (render (atr_value data atrPeriod) d
       ((close d - multiplier * atr_value data atrPeriod)%num, UP)),
    (map (fun p => render (atr_value data atrPeriod) (fst p) (snd p)) points).
  split; [now apply calculateATR_long |]. split; [exact Hd |].
  split.
  - rewrite trailing_long by exact Hlen. unfold trailing_value. cbv zeta.
    rewrite (skipn_nth_error _ _ Hd), Hpoints. reflexivity.
  - rewrite calculateVolatilityStop_eq. cbv zeta. simpl.
    split; [reflexivity |]. split; [reflexivity |].
    now rewrite Hcomm.
Qed.

(** On doubles, for [nine_days] with period 2 and multiplier 1. *)
Lemma first_trailing_point_is_static_stop_witness :
  exists atr d r rest,
    calculateATR (A := binary64) nine_days 2 = Ok atr /\
    nth_error nine_days 2 = Some d /\
    calculateVolatilityStopTrailing nine_days 2 (int 1) = Ok (r :: rest) /\
    r_trend r = UP /\
    r_atr r = vs_atr (calculateVolatilityStop (close d) atr (int 1)) /\
    r_stopLoss r = vs_stopLoss (calculateVolatilityStop (close d) atr (int 1)).
Proof.
  apply (@first_trailing_point_is_static_stop _ binary64 nine_days 2 (int 1)).
  - exact times_comm_double.
  - simpl. lia.
Defined.

(** ** The shortest series, rising closes and the side of the stop *)

(** X13: with exactly [period + 1] bars no smoothing step runs:
    [calculateATR] returns the sum of all [period] true ranges divided by
    [period] (every arithmetic). *)
Theorem atr_of_shortest_series {number : Type} {A : Arith number}
  (data : list (StockData number)) (period : nat) :
  length data = (period + 1)%nat ->
  length (true_ranges data) = period /\
  calculateATR data period
  = Ok (fold_left plus (true_ranges data) (int 0) / of_nat period)%num.
Proof.
  intro Hlen.
  assert (Htr : length (true_ranges data) = period)
    by (rewrite true_ranges_length; lia).
  split; [exact Htr |].
  rewrite calculateATR_long by lia. unfold atr_value. cbv zeta.
  rewrite firstn_all2 by lia. rewrite skipn_all2 by lia. reflexivity.
Qed.

(** On doubles, [three_days] with period 2: the true ranges 2 and 1 give
    1.5. *)
Lemma atr_of_shortest_series_witness :
  calculateATR (A := binary64) three_days 2
  = Ok (divide (plus (plus (int 0) (int 2)) (int 1)) (int 2)).
Proof.
  assert (H : length (@three_days Binary64.double _) = (2 + 1)%nat)
    by reflexivity.
  rewrite (proj2 (atr_of_shortest_series three_days 2 H)).
  vm_compute. reflexivity.
Defined.

Section ExactMore.

#[local] Open Scope Q_scope.

(** X14: while the closes from index [atrPeriod] on do not fall, the
    trailing stop never flips: with [atrPeriod >= 1] and
    [multiplier >= 0] every returned point has trend UP, and none has the
    signal SELL (exact rationals). *)
Theorem rising_closes_never_flip (data : list (StockData Q))
  (atrPeriod : nat) (multiplier : Q) (rs : list (VolatilityStopResult Q)) :
  (1 <= atrPeriod)%nat -> 0 <= multiplier ->
  (forall i d d',
      (atrPeriod <= i)%nat -> nth_error data i = Some d ->
      nth_error data (S i) = Some d' -> close d <= close d') ->
  calculateVolatilityStopTrailing data atrPeriod multiplier = Ok rs ->
  forall r, In r rs -> r_trend r = UP /\ r_signal r <> SELL.
Proof.
  intros Hp Hm Hrise Hrun r Hr.
  destruct (trailing_ok_inv _ _ _ Hrun) as [Hlen ->].
  unfold trailing_value in Hr. cbv zeta in Hr.
  apply in_map_iff in Hr. destruct Hr as [[d st] [<- Hin]].
  unfold trail_points in Hin. apply in_combine_r in Hin.
  assert (Hnn : 0 <= multiplier * atr_value data atrPeriod).
  { apply Qmult_le_0_compat; [exact Hm |].
    now apply atr_value_nonneg. }
  pose proof (rising_states Hnn (@Chain_skipn_closes data atrPeriod Hrise))
    as Hup.
  rewrite Forall_forall in Hup. specialize (Hup st Hin).
  simpl. split; [exact Hup |].
  intro Hsell. apply signal_of_sell in Hsell. destruct Hsell as [Hdown _].
  congruence.
Qed.

(** [ten_days] rises from 100 to 109. *)
Lemma rising_closes_never_flip_witness :
  Forall (fun r => r_trend r = UP /\ r_signal r <> SELL) ten_days_points.
Proof.
  assert (Hrun : calculateVolatilityStopTrailing (A := rational) ten_days 2 1
                 = Ok ten_days_points) by (vm_compute; reflexivity).
  apply Forall_forall.
  apply (@rising_closes_never_flip ten_days 2 1 ten_days_points);
    [lia | | | exact Hrun].
  - unfold Qle. simpl. lia.
  - intros i d d' _ Hd Hd'. unfold ten_days, flat in Hd, Hd'.
    do 10 (destruct i as [| i];
           [simpl in Hd, Hd';
            first [discriminate Hd'
                  | injection Hd as <-; injection Hd' as <-;
                    unfold Qle; simpl; lia] |]).
    destruct i; discriminate Hd.
Defined.

(** X15: for a positive price and an ATR and a multiplier that are not
    negative, [calculateVolatilityStop] returns a stop that is not above
    the price, both rounded to two decimals, and a percentage and an ATR
    that are not negative; when it recommends SELL the stop is at most 90
    percent of the price (exact rationals). *)
Theorem static_stop_below_price (currentPrice atr multiplier : Q) :
  0 < currentPrice -> 0 <= atr -> 0 <= multiplier ->
  let r := calculateVolatilityStop currentPrice atr multiplier in
  vs_stopLoss r <= toFixed2 currentPrice /\
  0 <= vs_stopLossPercentage r /\
  0 <= vs_atr r /\
  (vs_recommendation r = SELL ->
   vs_stopLoss r <= toFixed2 ((9 # 10) * currentPrice)).
Proof.
  intros Hp Ha Hm r. subst r. rewrite calculateVolatilityStop_eq.
  cbv zeta. simpl.
  assert (Ham : 0 <= atr * multiplier) by now apply Qmult_le_0_compat.
  split; [apply toFixed2_mono; lra |].
  split.
  { rewrite <- toFixed2_zero. apply toFixed2_mono.
    rewrite static_pct by lra. apply Qle_shift_div_l; lra. }
  split; [rewrite <- toFixed2_zero; now apply toFixed2_mono |].
  intro Hsell.
  destruct (recommend_exact
              ((currentPrice - (currentPrice - atr * multiplier))
               / currentPrice * 100)) as [Rs _].
  apply Rs in Hsell.
  apply (@static_thresholds currentPrice atr multiplier Hp) in Hsell.
  apply toFixed2_mono. lra.
Qed.

(** Price 100, ATR 5.5 and multiplier 2: the stop 89 is below 90. *)
Lemma static_stop_below_price_witness :
  vs_stopLoss (calculateVolatilityStop 100 (11 # 2) 2) <= toFixed2 100.
Proof.
  assert (H1 : 0 < 100) by reflexivity.
  assert (H2 : 0 <= 11 # 2) by (unfold Qle; simpl; lia).
  assert (H3 : 0 <= 2) by (unfold Qle; simpl; lia).
  exact (proj1 (@static_stop_below_price 100 (11 # 2) 2 H1 H2 H3)).
Defined.

End ExactMore.

(** ** [generateSampleData] and [formatSymbol] *)

(** X16: [generateSampleData] returns exactly [days] bars, whatever
    [Math.random()] yields; hence [calculateATR] on the sample returns
    exactly when [period + 1 <= days], throws its error otherwise, and the
    trailing stop on a sample that is long enough has [days - period]
    points (every arithmetic). *)
Theorem sample_data_length {number : Type} {A : Arith number}
  (Math_random : nat -> number) (isoDay : nat -> nat -> string)
  (basePrice : number) (days period : nat) (multiplier : number) :
  let data := generateSampleData Math_random isoDay basePrice days in
  length data = days /\
  (returns (calculateATR data period) <-> (period + 1 <= days)%nat) /\
  (calculateATR data period = Throw (Error (atr_message period))
   <-> (days < period + 1)%nat) /\
  ((period + 1 <= days)%nat ->
   exists rs,
     calculateVolatilityStopTrailing data period multiplier = Ok rs /\
     length rs = (days - period)%nat).
Proof.
  intro data.
  assert (Hlen : length data = days) by apply generateSampleData_length.
  split; [exact Hlen |].
  destruct (Nat.lt_ge_cases days (period + 1)) as [Hshort | Hlong].
  - assert (E : calculateATR data period = Throw (Error (atr_message period)))
      by (apply calculateATR_short; lia).
    split; [| split].
    + split; [intros [a Ha]; congruence | lia].
    + split; [intros _; exact Hshort | intros _; exact E].
    + lia.
  - assert (E : calculateATR data period = Ok (atr_value data period))
      by (apply calculateATR_long; lia).
    split; [| split].
    + split; [intros _; exact Hlong | intros _; eexists; exact E].
    + split; [congruence | lia].
    + intros _. exists (trailing_value data period multiplier).
      split; [apply trailing_long; lia |].
      rewrite trailing_value_length, Hlen. reflexivity.
Qed.

Section ExactCallers.

#[local] Open Scope Q_scope.

(** X17: when the base price is not negative and every value of
    [Math.random()] lies between 0 and 1, every bar that
    [generateSampleData] returns has [0 <= low <= close <= high], after
    the rounding to two decimals (exact rationals). *)
Theorem sample_bars_well_formed (Math_random : nat -> Q)
  (isoDay : nat -> nat -> string) (basePrice : Q) (days : nat) :
  0 <= basePrice ->
  (forall k, 0 <= Math_random k /\ Math_random k <= 1) ->
  forall d, In d (generateSampleData Math_random isoDay basePrice days) ->
    0 <= low d /\ low d <= close d /\ close d <= high d.
Proof.
  intros Hbase Hrandom.
  assert (H : Forall well_formed
                (generateSampleData Math_random isoDay basePrice days)).
  { unfold generateSampleData. apply sample_loop_ok.
    - exact Hrandom.
    - exact Hbase.
    - constructor. }
  intros d Hd. rewrite Forall_forall in H. exact (H d Hd).
Qed.

(** Three bars from 100 when every draw is one half. *)
Lemma sample_bars_well_formed_witness :
  Forall (fun d => 0 <= low d /\ low d <= close d /\ close d <= high d)
    (generateSampleData (fun _ => 1 # 2) (fun _ _ => "2024-01-01"%string)
       100 3).
Proof.
  apply Forall_forall. apply sample_bars_well_formed.
  - unfold Qle. simpl. lia.
  - intro k. split; unfold Qle; simpl; lia.
Defined.

End ExactCallers.

(** X19: [formatSymbol] returns a symbol that ends with [.NS] or [.BO],
    and formatting a formatted symbol changes nothing: no second suffix
    is appended. *)
Theorem formatSymbol_idempotent (symbol : string) :
  (endsWith (NSE.formatSymbol symbol) ".NS"
   || endsWith (NSE.formatSymbol symbol) ".BO") = true /\
  NSE.formatSymbol (NSE.formatSymbol symbol) = NSE.formatSymbol symbol.
Proof.
  assert (H : (endsWith (NSE.formatSymbol symbol) ".NS"
               || endsWith (NSE.formatSymbol symbol) ".BO") = true).
  { unfold NSE.formatSymbol.
    destruct (endsWith symbol ".NS" || endsWith symbol ".BO") eqn:E.
    - exact E.
    - rewrite endsWith_app. reflexivity. }
  split; [exact H |].
  unfold NSE.formatSymbol at 1. now rewrite H.
Qed.

(** ** [stock-api.ts] *)

(** X20: a symbol that ends with [.BSE] is sent to the NSE service,
    whatever provider is configured, and [formatSymbol] of that service
    does not know the suffix: it appends [.NS] to it. *)
Theorem bse_symbol_gets_second_suffix (provider : option string)
  (symbol : string) :
  endsWith symbol ".BSE" = true ->
  StockApi.getStockServiceForSymbol provider symbol = StockApi.NSEService /\
  NSE.formatSymbol symbol = (symbol ++ ".NS")%string.
Proof.
  intro H. split.
  - unfold StockApi.getStockServiceForSymbol. cbv zeta. rewrite H.
    now rewrite orb_true_r.
  - pose proof (@endsWith_last symbol ".BSE" _ eq_refl H) as Hlast.
    unfold NSE.formatSymbol.
    destruct (endsWith symbol ".NS") eqn:E1.
    + pose proof (@endsWith_last symbol ".NS" _ eq_refl E1) as H1.
      congruence.
    + destruct (endsWith symbol ".BO") eqn:E2; [| reflexivity].
      pose proof (@endsWith_last symbol ".BO" _ eq_refl E2) as H2.
      congruence.
Qed.

Lemma bse_symbol_gets_second_suffix_witness :
  StockApi.getStockServiceForSymbol (Some "finnhub"%string) "RELIANCE.BSE"
  = StockApi.NSEService /\
  NSE.formatSymbol "RELIANCE.BSE" = "RELIANCE.BSE.NS"%string.
Proof.
  apply (@bse_symbol_gets_second_suffix (Some "finnhub"%string)
           "RELIANCE.BSE"%string).
  reflexivity.
Defined.

(** X21: a symbol as [formatSymbol] of the NSE service returns it is sent
    to the NSE service by [getStockServiceForSymbol], whatever provider is
    configured. *)
Theorem formatted_symbol_goes_to_nse (provider : option string)
  (symbol : string) :
  StockApi.getStockServiceForSymbol provider (NSE.formatSymbol symbol)
  = StockApi.NSEService.
Proof.
  unfold StockApi.getStockServiceForSymbol. cbv zeta.
  assert (H : (endsWith (NSE.formatSymbol symbol) ".NS"
               || endsWith (NSE.formatSymbol symbol) ".BO") = true).
  { unfold NSE.formatSymbol.
    destruct (endsWith symbol ".NS" || endsWith symbol ".BO") eqn:E.
    - exact E.
    - rewrite endsWith_app. reflexivity. }
  now rewrite H.
Qed.

(** X22: the two groups of [batchFetchPrices] split the request: every
    requested symbol is in exactly one of [indianStocks] and
    [otherStocks], the groups hold nothing else, and their lengths add up
    to the length of the request. *)
Theorem batch_groups_split_the_request (symbols : list string) :
  (forall s, In s symbols <->
             In s (StockApi.indianStocks symbols)
             \/ In s (StockApi.otherStocks symbols)) /\
  (forall s, In s (StockApi.indianStocks symbols) ->
             ~ In s (StockApi.otherStocks symbols)) /\
  (length (StockApi.indianStocks symbols)
   + length (StockApi.otherStocks symbols) = length symbols)%nat.
Proof.
  unfold StockApi.indianStocks, StockApi.otherStocks.
  split; [| split].
  - intro s. rewrite !filter_In. split.
    + intro H.
      destruct (endsWith s ".NS"), (endsWith s ".BO"), (endsWith s ".BSE");
        simpl; tauto.
    + tauto.
  - intros s. rewrite !filter_In. intros [_ H1] [_ H2].
    destruct (endsWith s ".NS"), (endsWith s ".BO"), (endsWith s ".BSE");
      discriminate.
  - induction symbols as [| s symbols IH]; [reflexivity |].
    simpl.
    destruct (endsWith s ".NS"), (endsWith s ".BO"), (endsWith s ".BSE");
      simpl; lia.
Qed.

(** ** The route [/api/stock/volatility] *)

Section RouteProperties.

Context {number : Type} {A : Arith number}.

Variable World : Type.
Variable fetchCurrentPrice : string -> World -> Result number * World.
Variable fetchHistoricalData :
  string -> nat -> World -> Result (list (StockData number)) * World.
Variable toISOString : World -> string.
Variable HISTORICAL_DAYS : nat.
Variable engine_message : JsError -> string.

(** X27: when both services resolve for GET and the history is shorter
    than [atrPeriod + 1], the answer has status 500 and its error is the
    message of [calculateATR], which names the length needed. *)
Theorem get_short_history (s : string) (atrPeriod : nat)
  (atrMultiplier : number) (w w1 w2 : World) (price : number)
  (history : list (StockData number)) :
  s <> EmptyString ->
  fetchCurrentPrice s w = (Ok price, w1) ->
  fetchHistoricalData s HISTORICAL_DAYS w1 = (Ok history, w2) ->
  (length history < atrPeriod + 1)%nat ->
  Route.GET fetchCurrentPrice fetchHistoricalData toISOString
    HISTORICAL_DAYS engine_message (Some s) atrPeriod atrMultiplier w
  = (Ok {| Route.body :=
             Route.Refused
               ("Need at least " ++ to_string (atrPeriod + 1)
                  ++ " data points to calculate ATR")%string;
           Route.status := 500 |},
     w2).
Proof.
  intros Hs Hp Hh Hlen.
  unfold Route.GET, Route.try_catch, Route.bindIO, Route.lift, Route.ret,
    Route.now.
  destruct s as [| c s]; [now elim Hs |].
  rewrite Hp, Hh, (calculateATR_short _ _ Hlen). reflexivity.
Qed.

End RouteProperties.

Lemma get_short_history_witness :
  Route.GET steady_price steady_history steady_clock 30 no_message
    (Some "AAPL"%string) 14 (int 2) tt
  = (Ok {| Route.body :=
             Route.Refused "Need at least 15 data points to calculate ATR";
           Route.status := 500 |},
     tt).
Proof.
  apply (@get_short_history _ binary64 unit steady_price steady_history
           steady_clock 30%nat no_message "AAPL"%string 14%nat (int 2)
           tt tt tt (int 100) nine_days).
  - discriminate.
  - reflexivity.
  - reflexivity.
  - simpl. lia.
Defined.
